(** * DailyTaskLoggerBot: a model of [bot.py] and its checked properties

    The bot is a Flask application.  It verifies the Ed25519 signature of
    every Discord interaction, answers PING, and for the slash commands
    [start], [end] and [work_done] appends one row to a Google sheet.

    The Python code is embedded function by function.  Python values are the
    JSON values a request can carry; a Python [str] is represented by its
    UTF-8 encoding, so that [bytes.decode("utf-8")] is a well-formedness test
    and [str.encode()] the identity on the representation.  Code that can
    raise returns an [outcome]; code that also logs, reads the clock or calls
    the sheet runs in the monad [Run] over the [World].  What the libraries
    and the outside services do (PyNaCl, the clock, gspread, requests) is a
    field of the record [Externals]; what Flask makes of a request (its
    headers, [request.data], [request.json]) is a field of the record
    [Request]. *)

From Stdlib Require Import List String Ascii ZArith NArith Bool Lia.
From Stdlib.Strings Require Import Byte.
From Stdlib Require Import DecimalString.
Import ListNotations.
Local Open Scope string_scope.
Local Open Scope Z_scope.

Set Implicit Arguments.
#[local] Set Warnings "-register-all,-notation-incompatible-prefix".

(** ** Python values *)

(** A binary float [(-1)^neg * m * 2^e], or one of the special values
    [json.loads] accepts. *)
Inductive pyfloat : Type :=
| FNan
| FInf (neg : bool)
| FNum (neg : bool) (m : N) (e : Z).

Inductive value : Type :=
| VNone
| VBool (b : bool)
| VInt (z : Z)
| VFloat (f : pyfloat)
| VStr (s : string)
| VList (l : list value)
| VDict (d : list (string * value)).

(** A [dict] with string keys: the first binding of a key is the one seen. *)
Definition dict : Type := list (string * value).

Fixpoint dict_get (d : dict) (k : string) : option value :=
  match d with
  | [] => None
  | (k', v) :: rest => if String.eqb k' k then Some v else dict_get rest k
  end.

(** [d[k] = v] and [del d[k]]. *)
Definition dict_del (k : string) (d : dict) : dict :=
  filter (fun kv => negb (String.eqb (fst kv) k)) d.

Definition dict_set (k : string) (v : value) (d : dict) : dict :=
  (k, v) :: dict_del k d.

Definition type_name (v : value) : string :=
  match v with
  | VNone => "NoneType"
  | VBool _ => "bool"
  | VInt _ => "int"
  | VFloat _ => "float"
  | VStr _ => "str"
  | VList _ => "list"
  | VDict _ => "dict"
  end.

(** Truth value testing, as [or], [not] and [if] apply it. *)
Definition truthy (v : value) : bool :=
  match v with
  | VNone => false
  | VBool b => b
  | VInt z => negb (z =? 0)
  | VFloat (FNum _ m _) => negb (m =? 0)%N
  | VFloat _ => true
  | VStr s => negb (String.eqb s "")
  | VList l => match l with [] => false | _ => true end
  | VDict d => match d with [] => false | _ => true end
  end.

(** [a or b] on values that are already computed. *)
Definition py_or (a b : value) : value := if truthy a then a else b.

(** [f == n] for a float and an integer, compared exactly. *)
Definition float_eq_int (f : pyfloat) (n : Z) : bool :=
  match f with
  | FNum neg m e =>
      let zm := if neg then - Z.of_N m else Z.of_N m in
      if 0 <=? e then zm * 2 ^ e =? n else zm =? n * 2 ^ (- e)
  | _ => false
  end.

(** [v == n] for an integer literal [n]: [True == 1] and [1.0 == 1] hold. *)
Definition py_eq_int (v : value) (n : Z) : bool :=
  match v with
  | VInt z => z =? n
  | VBool b => (if b then 1 else 0) =? n
  | VFloat f => float_eq_int f n
  | _ => false
  end.

(** [v == s] for a string literal [s]. *)
Definition py_eq_str (v : value) (s : string) : bool :=
  match v with
  | VStr s' => String.eqb s' s
  | _ => false
  end.

(** [str] of an integer. *)
Definition str_of_Z (z : Z) : string := NilZero.string_of_int (Z.to_int z).
Definition str_of_N (n : N) : string := NilEmpty.string_of_uint (N.to_uint n).

(** ** Exceptions and outcomes *)

(** [KeyError] carries its key as [repr] writes it, which is the text of the
    exception; [HTTPException] is werkzeug's, with the name of its status. *)
Inductive exn : Type :=
| KeyError (key_repr : string)
| ValueError (msg : string)
| UnicodeDecodeError
| BadSignatureError
| AttributeError (ty attr : string)
| TypeErrorNotIterable (ty : string)
| HTTPException (code : Z) (name description : string)
| OutsideError (cls msg : string).

(** [str(e)].  The text of [UnicodeDecodeError] is abbreviated: it is only
    ever logged. *)
Definition str_exn (e : exn) : string :=
  match e with
  | KeyError r => r
  | ValueError m => m
  | UnicodeDecodeError => "'utf-8' codec can't decode byte"
  | BadSignatureError => "Signature was forged or corrupt"
  | AttributeError ty a => "'" ++ ty ++ "' object has no attribute '" ++ a ++ "'"
  | TypeErrorNotIterable ty => "'" ++ ty ++ "' object is not iterable"
  | HTTPException code n d => str_of_Z code ++ " " ++ n ++ ": " ++ d
  | OutsideError _ m => m
  end.

Inductive outcome (A : Type) : Type :=
| Returned (a : A)
| Raised (e : exn).
Arguments Returned {A} a.
Arguments Raised {A} e.

Definition obind {A B} (o : outcome A) (k : A -> outcome B) : outcome B :=
  match o with
  | Returned a => k a
  | Raised e => Raised e
  end.

Declare Scope outcome_scope.
Delimit Scope outcome_scope with outcome.
Notation "'let?' x ':=' c 'in' k" := (obind c (fun x => k))
  (at level 10, x name, c at level 100, k at level 200) : outcome_scope.
Notation "'let?' '_' ':=' c 'in' k" := (obind c (fun _ => k))
  (at level 10, c at level 100, k at level 200) : outcome_scope.

(** [v.get(k)] and [v.get(k, default)]: only a [dict] has the method. *)
Definition py_get (v : value) (k : string) (default : value) : outcome value :=
  match v with
  | VDict d =>
      Returned (match dict_get d k with Some x => x | None => default end)
  | _ => Raised (AttributeError (type_name v) "get")
  end.

(** ** Bytes, hexadecimal text and UTF-8 *)

Definition encode_utf8 (s : string) : list byte := list_byte_of_string s.

(** The well-formed byte sequences of UTF-8 (Unicode, table 3-7), which is
    what the strict decoder accepts. *)
Definition in_range (lo hi : N) (b : byte) : bool :=
  ((lo <=? Byte.to_N b) && (Byte.to_N b <=? hi))%N.

Definition cont : byte -> bool := in_range 128 191.

Fixpoint utf8_valid (bs : list byte) : bool :=
  match bs with
  | [] => true
  | b0 :: r0 =>
      if in_range 0 127 b0 then utf8_valid r0
      else match r0 with
      | [] => false
      | b1 :: r1 =>
          if in_range 194 223 b0 then cont b1 && utf8_valid r1
          else match r1 with
          | [] => false
          | b2 :: r2 =>
              if in_range 224 224 b0
              then in_range 160 191 b1 && cont b2 && utf8_valid r2
              else if in_range 225 236 b0 || in_range 238 239 b0
              then cont b1 && cont b2 && utf8_valid r2
              else if in_range 237 237 b0
              then in_range 128 159 b1 && cont b2 && utf8_valid r2
              else match r2 with
              | [] => false
              | b3 :: r3 =>
                  if in_range 240 240 b0
                  then in_range 144 191 b1 && cont b2 && cont b3
                       && utf8_valid r3
                  else if in_range 241 243 b0
                  then cont b1 && cont b2 && cont b3 && utf8_valid r3
                  else if in_range 244 244 b0
                  then in_range 128 143 b1 && cont b2 && cont b3
                       && utf8_valid r3
                  else false
              end
          end
      end
  end.

(** [data.decode("utf-8")]. *)
Definition decode_utf8 (bs : list byte) : outcome string :=
  if utf8_valid bs then Returned (string_of_list_byte bs)
  else Raised UnicodeDecodeError.

Definition hex_digit (c : ascii) : option N :=
  let n := N_of_ascii c in
  if ((48 <=? n) && (n <=? 57))%N then Some (n - 48)%N
  else if ((97 <=? n) && (n <=? 102))%N then Some (n - 87)%N
  else if ((65 <=? n) && (n <=? 70))%N then Some (n - 55)%N
  else None.

(** The characters [bytes.fromhex] skips between two bytes. *)
Definition is_space (c : ascii) : bool :=
  let n := N_of_ascii c in
  ((n =? 32) || ((9 <=? n) && (n <=? 13)))%N.

Definition byte_of_nibbles (hi lo : N) : byte :=
  match Byte.of_N (16 * hi + lo) with
  | Some b => b
  | None => x00
  end.

Fixpoint fromhex_chars (cs : list ascii) : option (list byte) :=
  match cs with
  | [] => Some []
  | c :: rest =>
      if is_space c then fromhex_chars rest
      else match hex_digit c, rest with
           | Some hi, d :: rest' =>
               match hex_digit d with
               | Some lo =>
                   match fromhex_chars rest' with
                   | Some bs => Some (byte_of_nibbles hi lo :: bs)
                   | None => None
                   end
               | None => None
               end
           | _, _ => None
           end
  end.

(** [bytes.fromhex(s)]; [None] stands for its [ValueError]. *)
Definition bytes_fromhex (s : string) : option (list byte) :=
  fromhex_chars (list_ascii_of_string s).

Definition fromhex (s : string) : outcome (list byte) :=
  match bytes_fromhex s with
  | Some bs => Returned bs
  | None => Raised (ValueError "non-hexadecimal number found in fromhex() arg")
  end.


(** ** Text helpers *)

Fixpoint zeros (k : nat) : string :=
  match k with
  | O => ""
  | S k' => "0" ++ zeros k'
  end.

(** A decimal number padded with zeros on the left to [width] digits. *)
Definition pad (width : nat) (n : N) : string :=
  let s := str_of_N n in zeros (width - String.length s) ++ s.

(** The name under which the WSGI environment holds a header: in upper
    case, with [_] for [-], after [HTTP_]. *)
Definition environ_ascii (c : ascii) : ascii :=
  let n := N_of_ascii c in
  if ((97 <=? n) && (n <=? 122))%N then ascii_of_N (n - 32)
  else if (n =? 45)%N then "_"%char
  else c.

Fixpoint environ_name (s : string) : string :=
  match s with
  | EmptyString => EmptyString
  | String c rest => String (environ_ascii c) (environ_name rest)
  end.

Definition environ_key (name : string) : string :=
  "HTTP_" ++ environ_name name.

(** ** The clock *)

Record datetime : Type := mkDatetime {
  year : N; month : N; day : N;
  hour : N; minute : N; second : N
}.

Definition directive (dt : datetime) (c : ascii) : string :=
  if Ascii.eqb c "Y" then pad 4 (year dt)
  else if Ascii.eqb c "m" then pad 2 (month dt)
  else if Ascii.eqb c "d" then pad 2 (day dt)
  else if Ascii.eqb c "H" then pad 2 (hour dt)
  else if Ascii.eqb c "M" then pad 2 (minute dt)
  else if Ascii.eqb c "S" then pad 2 (second dt)
  else String "%" (String c "").

(** [dt.strftime(fmt)] for the directives the bot uses. *)
Fixpoint strftime (dt : datetime) (fmt : string) : string :=
  match fmt with
  | EmptyString => ""
  | String c rest =>
      if Ascii.eqb c "%" then
        match rest with
        | String d rest' => directive dt d ++ strftime dt rest'
        | EmptyString => String c ""
        end
      else String c (strftime dt rest)
  end.

(** ** The world outside the process *)

Definition row : Type := list string.

Inductive call : Type :=
| OpenSheet (creds sheet_name : string)
| AppendRow (r : row)
| HttpPut (url : string) (hdrs : list (string * string)) (body : value).

Inductive log_level : Type := INFO | WARNING | ERROR.

(** A record of the [logging] module: the level, the text the code wrote, and
    the exception the text ends with or the record carries. *)
Record log_entry : Type := mkLog {
  level : log_level;
  message : string;
  cause : option exn
}.

(** The log holds the records the bot and the Flask application write
    through [logging]; the access log of the server that runs the
    application is not part of it. *)
Record World : Type := mkWorld {
  sheet_rows : list row;       (* the worksheet, oldest row first *)
  outside_calls : list call;   (* calls to Google and Discord, oldest first *)
  log : list log_entry
}.

(** What the libraries and the outside services answer. *)
Record Externals : Type := mkExternals {
  (* libsodium's check of a 64-byte signature under a 32-byte key *)
  ed25519_verify : list byte -> list byte -> list byte -> bool;
  (* str() of a float, a list or a dict *)
  str_other : value -> string;
  (* int() of a string: the number, or the ValueError it raises *)
  int_of_str : string -> outcome Z;
  (* datetime.now(ZoneInfo(tz)) *)
  datetime_now : string -> outcome datetime;
  (* whether sheet.append_row(row) raises, given the sheet before the call *)
  append_row_fault : list row -> row -> option exn;
  (* whether authorising with Google or opening the sheet raises *)
  open_sheet_fault : string -> string -> option exn;
  (* requests.put(url, headers=..., json=...): status code and text *)
  requests_put :
    string -> list (string * string) -> value -> outcome (Z * string);
  (* whether json.loads or from_json_keyfile_dict raises for the credentials:
     both work on the text alone and call nothing outside *)
  load_creds_fault : string -> option exn
}.

(** [str(v)], which is also what an f-string writes for [v]. *)
Definition py_str (X : Externals) (v : value) : string :=
  match v with
  | VStr s => s
  | VNone => "None"
  | VBool true => "True"
  | VBool false => "False"
  | VInt z => str_of_Z z
  | _ => str_other X v
  end.

(** ** Code with effects *)

Definition Run (A : Type) : Type := World -> outcome A * World.

Definition ret {A} (a : A) : Run A := fun w => (Returned a, w).

Definition raise {A} (e : exn) : Run A := fun w => (Raised e, w).

Definition bind {A B} (c : Run A) (k : A -> Run B) : Run B :=
  fun w =>
    match c w with
    | (Returned a, w') => k a w'
    | (Raised e, w') => (Raised e, w')
    end.

Definition lift {A} (o : outcome A) : Run A := fun w => (o, w).

(** [try: body  except Exception as e: handler(e)]. *)
Definition try_except {A} (body : Run A) (handler : exn -> Run A) : Run A :=
  fun w =>
    match body w with
    | (Returned a, w') => (Returned a, w')
    | (Raised e, w') => handler e w'
    end.

Declare Scope run_scope.
Delimit Scope run_scope with run.
Notation "x <- c ;; k" := (bind c (fun x => k))
  (at level 61, c at next level, right associativity) : run_scope.
Notation "c ;; k" := (bind c (fun _ => k))
  (at level 61, right associativity) : run_scope.

Definition logging (lv : log_level) (msg : string) (e : option exn)
  : Run unit :=
  fun w => (Returned tt,
            mkWorld (sheet_rows w) (outside_calls w) (log w ++ [mkLog lv msg e])).

Definition note_call (c : call) : Run unit :=
  fun w => (Returned tt,
            mkWorld (sheet_rows w) (outside_calls w ++ [c]) (log w)).

(** [sheet.append_row(row)]: the row goes below the last one unless the call
    raises. *)
Definition append_row (X : Externals) (r : row) : Run unit :=
  fun w =>
    let w1 := mkWorld (sheet_rows w) (outside_calls w ++ [AppendRow r]) (log w) in
    match append_row_fault X (sheet_rows w) r with
    | Some e => (Raised e, w1)
    | None =>
        (Returned tt,
         mkWorld (sheet_rows w ++ [r]) (outside_calls w1) (log w1))
    end.

(** ** Config *)

Record Config : Type := mkConfig {
  TZ : string;
  SHEET_NAME : string;
  DISCORD_PUBLIC_KEY : string;
  DISCORD_TOKEN : string;
  DISCORD_APP_ID : string;
  DISCORD_GUILD_ID : option string
}.

Definition environ : Type := list (string * string).

(** [os.environ.get(k)]. *)
Fixpoint getenv (env : environ) (k : string) : option string :=
  match env with
  | [] => None
  | (k', v) :: rest => if String.eqb k' k then Some v else getenv rest k
  end.

(** [os.getenv(k, default)]. *)
Definition getenv_default (env : environ) (k default : string) : string :=
  match getenv env k with
  | Some v => v
  | None => default
  end.

(** [not v] for the result of [os.environ.get]. *)
Definition not_set (o : option string) : bool :=
  match o with
  | None => true
  | Some s => String.eqb s ""
  end.

(** The text of a variable that is known to be set. *)
Definition env_text (o : option string) : string :=
  match o with
  | Some s => s
  | None => ""
  end.

(** ** Google Sheets *)

Definition now_ist (X : Externals) (cfg : Config) : Run datetime :=
  lift (datetime_now X (TZ cfg)).

Definition log_to_sheet (X : Externals) (cfg : Config)
    (name action task_title desc : value) : Run unit :=
  (dt <- now_ist X cfg ;;
   let date_str := strftime dt "%Y-%m-%d" in
   let time_str := strftime dt "%H:%M:%S" in
   let r := [date_str; py_str X name; py_str X action; time_str;
             py_str X task_title; py_str X desc] in
   append_row X r)%run.

(** ** Discord (slash commands) *)

Definition COMMANDS : value :=
  VList [
    VDict [("name", VStr "start");
           ("description", VStr "Log start of work")];
    VDict [("name", VStr "end");
           ("description", VStr "Log end of work")];
    VDict [("name", VStr "work_done");
           ("description", VStr "Log a completed task");
           ("options", VList [
              VDict [("name", VStr "task_title");
                     ("description", VStr "Title of the task");
                     ("type", VInt 3);
                     ("required", VBool true)];
              VDict [("name", VStr "desc");
                     ("description", VStr "Description (optional)");
                     ("type", VInt 3);
                     ("required", VBool false)]])]].

Definition guild_given (cfg : Config) : bool :=
  negb (not_set (DISCORD_GUILD_ID cfg)).

Definition commands_url (cfg : Config) : string :=
  if guild_given cfg
  then "https://discord.com/api/v10/applications/" ++ DISCORD_APP_ID cfg
       ++ "/guilds/" ++ env_text (DISCORD_GUILD_ID cfg) ++ "/commands"
  else "https://discord.com/api/v10/applications/" ++ DISCORD_APP_ID cfg
       ++ "/commands".

Definition bot_headers (cfg : Config) : list (string * string) :=
  [("Authorization", "Bot " ++ DISCORD_TOKEN cfg);
   ("Content-Type", "application/json")].

Definition http_put (X : Externals) (url : string)
    (hdrs : list (string * string)) (body : value) : Run (Z * string) :=
  (note_call (HttpPut url hdrs body) ;;
   lift (requests_put X url hdrs body))%run.

Definition register_commands (X : Externals) (cfg : Config) : Run unit :=
  (let hdrs := bot_headers cfg in
   let url := commands_url cfg in
   resp <- http_put X url hdrs COMMANDS ;;
   let status_code := fst resp in
   let text := snd resp in
   if (status_code =? 200) || (status_code =? 201)
   then logging INFO "Slash commands registered successfully." None
   else logging ERROR
          ("Failed to register commands: " ++ str_of_Z status_code
           ++ " " ++ text) None)%run.

(** ** The request *)

(** A request, and what Flask makes of it.  [headers] is the header part of
    the WSGI environment, a dictionary written as a list of names and values
    of which the first binding of a name is the one seen; a header sent more
    than once has arrived there as one entry, joined by the server.  [body]
    is the body as it was sent.  [data] is [request.data], the bytes the code
    reads: werkzeug hands over the body as sent, except that a body it has
    read as a form (a form content type) is used up, and then [request.data]
    is empty.  [json] is [request.json]: the parsed body, or the 400 or 415
    Flask aborts with. *)
Record Request : Type := mkRequest {
  headers : list (string * string);
  body : list byte;
  data : list byte;
  json : outcome value
}.

(** [req.headers[name]]: werkzeug looks the name up in the environment, under
    its key there, and lets the [KeyError] of the environment pass. *)
Fixpoint headers_find (hs : list (string * string)) (name : string)
  : option string :=
  match hs with
  | [] => None
  | (k, v) :: rest =>
      if String.eqb (environ_key k) (environ_key name) then Some v
      else headers_find rest name
  end.

Definition headers_getitem (req : Request) (name : string) : outcome string :=
  match headers_find (headers req) name with
  | Some v => Returned v
  | None => Raised (KeyError ("'" ++ environ_key name ++ "'"))
  end.

(** [nacl.signing.VerifyKey(key)]. *)
Definition VerifyKey (key : list byte) : outcome (list byte) :=
  if (List.length key =? 32)%nat then Returned key
  else Raised (ValueError "The key must be exactly 32 bytes long").

(** [verify_key.verify(smessage, signature)]. *)
Definition VerifyKey_verify (X : Externals) (key smessage signature : list byte)
  : outcome (list byte) :=
  if (List.length signature =? 64)%nat then
    if ed25519_verify X key smessage signature then Returned smessage
    else Raised BadSignatureError
  else Raised (ValueError "The signature must be exactly 64 bytes long").

(** The body of the [try] in [verify_discord_request]: it touches nothing
    outside, so it is written in [outcome] and lifted once. *)
Definition checked_signature (X : Externals) (cfg : Config) (req : Request)
  : outcome bool :=
  (let? signature := headers_getitem req "X-Signature-Ed25519" in
   let? timestamp := headers_getitem req "X-Signature-Timestamp" in
   let? body := decode_utf8 (data req) in
   let? verify_key := (let? k := fromhex (DISCORD_PUBLIC_KEY cfg) in
                       VerifyKey k) in
   let smessage := encode_utf8 (timestamp ++ body) in
   let? sig := fromhex signature in
   let? _ := VerifyKey_verify X verify_key smessage sig in
   Returned true)%outcome.

Definition verify_discord_request (X : Externals) (cfg : Config)
    (req : Request) : Run bool :=
  try_except
    (lift (checked_signature X cfg req))
    (fun e =>
       (logging WARNING "Signature verification failed: " (Some e) ;;
        ret false)%run).

(** [a or b], where [b] is only evaluated when [a] is false. *)
Definition or_else (a b : outcome value) : outcome value :=
  (let? x := a in if truthy x then Returned x else b)%outcome.

Infix "|||" := or_else (at level 50, left associativity).

Definition extract_user_display (data : value) : outcome value :=
  (let? member := py_get data "member" VNone ||| Returned (VDict []) in
   let? user := py_get member "user" VNone ||| py_get data "user" VNone
                ||| Returned (VDict []) in
   (* Prefer server nickname, then global_name, then username *)
   py_get member "nick" VNone ||| py_get user "global_name" VNone
   ||| py_get user "username" VNone ||| Returned (VStr "Unknown"))%outcome.

(** What [for o in v] walks over. *)
Definition py_iter (v : value) : outcome (list value) :=
  match v with
  | VList l => Returned l
  | VDict d => Returned (map (fun kv => VStr (fst kv)) d)
  | VStr s => Returned (map (fun c => VStr (String c "")) (list_ascii_of_string s))
  | _ => Raised (TypeErrorNotIterable (type_name v))
  end.

Fixpoint option_loop (items : list value) (name : string) (default : value)
  : outcome value :=
  match items with
  | [] => Returned default
  | o :: rest =>
      (let? n := py_get o "name" VNone in
       if py_eq_str n name then py_get o "value" default
       else option_loop rest name default)%outcome
  end.

Definition option_value (options : value) (name : string) (default : value)
  : outcome value :=
  if negb (truthy options) then Returned default
  else (let? items := py_iter options in
        option_loop items name default)%outcome.

(** ** Flask app *)

Definition home : string * Z := ("✅ Bot server is running!", 200).

(** The body [jsonify] sends for an interaction response of type 4. *)
Definition reply (content : string) : value :=
  VDict [("type", VInt 4); ("data", VDict [("content", VStr content)])].

Definition pong : value := VDict [("type", VInt 1)].

(** The guarded block of [interactions] (the body of its [try]). *)
Definition commands (X : Externals) (cfg : Config)
    (data cmd user_display : value) : Run value :=
  (if py_eq_str cmd "start" then
     log_to_sheet X cfg user_display (VStr "Start") (VStr "") (VStr "") ;;
     ret (reply ("🟢 Start logged for **" ++ py_str X user_display ++ "**"))
   else if py_eq_str cmd "end" then
     log_to_sheet X cfg user_display (VStr "End") (VStr "") (VStr "") ;;
     ret (reply ("🔴 End logged for **" ++ py_str X user_display ++ "**"))
   else if py_eq_str cmd "work_done" then
     options <- lift (let? d := py_get data "data" (VDict []) in
                      py_get d "options" (VList []))%outcome ;;
     task_title <- lift (option_value options "task_title" (VStr "")) ;;
     desc <- lift (option_value options "desc" (VStr "")) ;;
     log_to_sheet X cfg user_display (VStr "Task") task_title desc ;;
     ret (reply ("✅ Task logged: **" ++ py_str X task_title ++ "** — "
                   ++ py_str X desc))
   else ret (reply "⚠ Unknown command"))%run.

(** The [except] clause of [interactions]. *)
Definition on_error (e : exn) : Run value :=
  (logging ERROR "Error handling command" (Some e) ;;
   ret (reply ("❌ Error: " ++ str_exn e)))%run.

Definition interactions (X : Externals) (cfg : Config) (req : Request)
  : Run value :=
  (ok <- verify_discord_request X cfg req ;;
   (if negb ok then raise (HTTPException 401 "Unauthorized" "Invalid request signature")
    else ret tt) ;;
   j <- lift (json req) ;;
   let data := py_or j (VDict []) in
   (* 1 = PING *)
   t <- lift (py_get data "type" VNone) ;;
   if py_eq_int t 1 then ret pong
   else
     (* 2 = APPLICATION_COMMAND *)
     t' <- lift (py_get data "type" VNone) ;;
     if py_eq_int t' 2 then
       cmd <- lift (let? d := py_get data "data" (VDict []) in
                    py_get d "name" VNone)%outcome ;;
       user_display <- lift (extract_user_display data) ;;
       try_except (commands X cfg data cmd user_display) on_error
     else
       (* Fallback *)
       ret (reply "Unsupported interaction type"))%run.

(** What Flask sends back for a view: the value it returns goes out with
    status 200, [abort] with its own status.  Any other exception is logged
    by Flask as an error, through the [logging] module the bot has
    configured, and goes out as 500. *)
Inductive response : Type :=
| JsonResponse (status : Z) (body : value)
| ErrorResponse (status : Z) (description : string).

(** The world after Flask has logged the exception [e] of the view at
    [route]. *)
Definition crashed (route : string) (e : exn) (w : World) : World :=
  mkWorld (sheet_rows w) (outside_calls w)
          (log w ++ [mkLog ERROR ("Exception on " ++ route) (Some e)]).

Definition flask_view (route : string) (view : Run value)
  : World -> response * World :=
  fun w =>
    match view w with
    | (Returned body, w') => (JsonResponse 200 body, w')
    | (Raised (HTTPException code _ d), w') => (ErrorResponse code d, w')
    | (Raised e, w') =>
        (ErrorResponse 500 "Internal Server Error", crashed route e w')
    end.

(** [POST /interactions]. *)
Definition post_interactions (X : Externals) (cfg : Config) (req : Request)
  : World -> response * World :=
  flask_view "/interactions [POST]" (interactions X cfg req).

(** ** Start of the process *)

(** The module level of [bot.py]: the configuration and the sheet. *)
Definition load_config (X : Externals) (env : environ) : Run Config :=
  (let tz := getenv_default env "TIMEZONE" "Asia/Kolkata" in
   let sheet_name := getenv_default env "GOOGLE_SHEET_NAME" "Daily Logs" in
   let public_key := getenv env "DISCORD_PUBLIC_KEY" in
   let token := getenv env "DISCORD_TOKEN" in
   let app_id := getenv env "DISCORD_APP_ID" in
   let guild_id := getenv env "DISCORD_GUILD_ID" in
   if not_set public_key
   then raise (ValueError "DISCORD_PUBLIC_KEY env var is required")
   else if not_set token
   then raise (ValueError "DISCORD_TOKEN env var is required")
   else if not_set app_id
   then raise (ValueError "DISCORD_APP_ID env var is required")
   else
     (if not_set guild_id
      then logging WARNING
             "DISCORD_GUILD_ID not set — commands will register globally and may take up to 1 hour."
             None
      else ret tt) ;;
     let creds_json_str := getenv env "GOOGLE_CREDS_JSON" in
     if not_set creds_json_str
     then raise (ValueError "GOOGLE_CREDS_JSON environment variable not set.")
     else
       (* json.loads and from_json_keyfile_dict *)
       match load_creds_fault X (env_text creds_json_str) with
       | Some e => raise e
       | None =>
           (* gspread.authorize and gclient.open *)
           note_call (OpenSheet (env_text creds_json_str) sheet_name) ;;
           match open_sheet_fault X (env_text creds_json_str) sheet_name with
           | Some e => raise e
           | None =>
               ret (mkConfig tz sheet_name (env_text public_key)
                             (env_text token) (env_text app_id) guild_id)
           end
       end)%run.

(** [int(os.environ.get("PORT", 5000))]. *)
Definition listen_port (X : Externals) (env : environ) : outcome Z :=
  match getenv env "PORT" with
  | None => Returned 5000
  | Some s => int_of_str X s
  end.

(** Running [bot.py] as a script: the result is the configuration and the
    port [app.run] is called with; an exception ends the process before the
    server listens. *)
Definition main (X : Externals) (env : environ) : Run (Config * Z) :=
  (cfg <- load_config X env ;;
   register_commands X cfg ;;
   port <- lift (listen_port X env) ;;
   ret (cfg, port))%run.

(** ** Sample data

    A stand-in for libsodium, requests and environments used by the examples
    below.  The stand-in signature of a message is 64 copies of the low byte
    of its length. *)

Definition hex_char (n : N) : ascii :=
  if (n <? 10)%N then ascii_of_N (48 + n) else ascii_of_N (87 + n).

(** [binascii.hexlify]. *)
Fixpoint hexlify (bs : list byte) : string :=
  match bs with
  | [] => ""
  | b :: rest =>
      String (hex_char (Byte.to_N b / 16))
        (String (hex_char (Byte.to_N b mod 16)) (hexlify rest))
  end.

Definition stub_sign (msg : list byte) : list byte :=
  repeat (byte_of_nibbles 0 (N.of_nat (List.length msg) mod 256)) 64.

Definition bytes_eqb (a b : list byte) : bool :=
  if list_eq_dec Byte.byte_eq_dec a b then true else false.

Definition stub_verify (key msg sig : list byte) : bool :=
  bytes_eqb sig (stub_sign msg).

Fixpoint digits (cs : list ascii) (acc : Z) : option Z :=
  match cs with
  | [] => Some acc
  | c :: rest =>
      let n := N_of_ascii c in
      if ((48 <=? n) && (n <=? 57))%N
      then digits rest (10 * acc + Z.of_N (n - 48))
      else None
  end.

(** [int] of a text of plain letters and digits: the text between quotes is
    its [repr]. *)
Definition stub_int (s : string) : outcome Z :=
  let fault :=
    Raised (ValueError ("invalid literal for int() with base 10: '"
                        ++ s ++ "'")) in
  match list_ascii_of_string s with
  | [] => fault
  | cs => match digits cs 0 with
          | Some z => Returned z
          | None => fault
          end
  end.

Definition morning : datetime := mkDatetime 2026 11 3 9 5 7.

(** Everything outside answers well. *)
Definition fair : Externals :=
  mkExternals stub_verify (fun _ => "?") stub_int
    (fun _ => Returned morning) (fun _ _ => None) (fun _ _ => None)
    (fun _ _ _ => Returned (200, "[]"))
    (fun _ => None).

(** The sheet refuses the append. *)
Definition sheet_down : Externals :=
  mkExternals stub_verify (fun _ => "?") stub_int
    (fun _ => Returned morning)
    (fun _ _ => Some (OutsideError "APIError" "quota exceeded"))
    (fun _ _ => None)
    (fun _ _ _ => Returned (200, "[]"))
    (fun _ => None).

(** Discord answers the registration with 403. *)
Definition discord_forbids : Externals :=
  mkExternals stub_verify (fun _ => "?") stub_int
    (fun _ => Returned morning) (fun _ _ => None) (fun _ _ => None)
    (fun _ _ _ => Returned (403, "Missing Access"))
    (fun _ => None).

(** Discord cannot be reached: [requests.put] raises. *)
Definition discord_unreachable : Externals :=
  mkExternals stub_verify (fun _ => "?") stub_int
    (fun _ => Returned morning) (fun _ _ => None) (fun _ _ => None)
    (fun _ _ _ => Raised (OutsideError "ConnectionError"
                            "Failed to establish a new connection"))
    (fun _ => None).

Definition key_hex : string :=
  "000102030405060708090a0b0c0d0e0f101112131415161718191a1b1c1d1e1f".

Definition key_bytes : list byte :=
  match bytes_fromhex key_hex with
  | Some k => k
  | None => []
  end.

Definition sample_cfg : Config :=
  mkConfig "Asia/Kolkata" "Daily Logs" key_hex "bot-token" "4242" None.

Definition empty_world : World := mkWorld [] [] [].

(** A request the stand-in signer has signed. *)
Definition signed (timestamp : string) (body : list byte) (j : outcome value)
  : Request :=
  mkRequest
    [("X-Signature-Ed25519", hexlify (stub_sign (encode_utf8 timestamp ++ body)));
     ("X-Signature-Timestamp", timestamp);
     ("Content-Type", "application/json")]
    body body j.

Definition interaction (j : value) : Request :=
  signed "1762140307" (encode_utf8 "{}") (Returned j).

Definition bob : value :=
  VDict [("nick", VStr "Bob");
         ("user", VDict [("global_name", VStr "robert");
                         ("username", VStr "rob123")])].

Definition start_by_bob : value :=
  VDict [("type", VInt 2);
         ("data", VDict [("name", VStr "start")]);
         ("member", bob)].

Definition fix_bug_option : dict :=
  [("name", VStr "task_title"); ("type", VInt 3); ("value", VStr "Fix bug")].

Definition work_done_data : dict :=
  [("name", VStr "work_done"); ("options", VList [VDict fix_bug_option])].

Definition work_done_payload : dict :=
  [("type", VInt 2); ("data", VDict work_done_data); ("member", bob)].

Definition work_done_by_bob : value := VDict work_done_payload.

(** An environment with every required variable.  The credentials are a
    stand-in: the sample libraries take any text for good credentials. *)
Definition full_env : environ :=
  [("DISCORD_PUBLIC_KEY", key_hex); ("DISCORD_TOKEN", "bot-token");
   ("DISCORD_APP_ID", "4242"); ("GOOGLE_CREDS_JSON", "{}")].



(** A signed request whose body is the single byte 0xE9, which is no UTF-8. *)
Definition latin1_request : Request :=
  signed "1762140307" [xe9] (Returned (VStr "?")).

(** Requests with a form content type: werkzeug reads the body as a form,
    [request.data] is empty and [request.json] aborts with 415.  The
    signature is the stand-in's for the timestamp followed by [signed_part]. *)
Definition form_request (signed_part body : list byte) : Request :=
  mkRequest
    [("X-Signature-Ed25519",
      hexlify (stub_sign (encode_utf8 "1762140307" ++ signed_part)));
     ("X-Signature-Timestamp", "1762140307");
     ("Content-Type", "application/x-www-form-urlencoded")]
    body []
    (Raised (HTTPException 415 "Unsupported Media Type"
               "Did not attempt to load JSON data because the request Content-Type was not 'application/json'.")).


(** Signed over the timestamp and the body that is sent. *)
Definition form_honest : Request :=
  form_request (encode_utf8 "type=1") (encode_utf8 "type=1").

(** A stricter stand-in for Ed25519: the signature of a message is the
    message itself, cut or filled with zeros to 64 bytes, so that no change
    within the first 64 bytes of a message goes unnoticed. *)
Definition stub_seal (msg : list byte) : list byte :=
  firstn 64 (msg ++ repeat x00 64).

Definition strict_verify (key msg sig : list byte) : bool :=
  bytes_eqb sig (stub_seal msg).

Definition strict : Externals :=
  mkExternals strict_verify (fun _ => "?") stub_int
    (fun _ => Returned morning) (fun _ _ => None) (fun _ _ => None)
    (fun _ _ _ => Returned (200, "[]"))
    (fun _ => None).

Definition sealed (timestamp : string) (body : list byte) (j : outcome value)
  : Request :=
  mkRequest
    [("X-Signature-Ed25519", hexlify (stub_seal (encode_utf8 timestamp ++ body)));
     ("X-Signature-Timestamp", timestamp);
     ("Content-Type", "application/json")]
    body body j.

Definition sealed_ping : Request :=
  sealed "1762140307" (encode_utf8 "{}") (Returned pong).

(** [sealed_ping] with the first byte of its body changed. *)
Definition sealed_ping_changed : Request :=
  mkRequest (headers sealed_ping) (encode_utf8 "[}") (encode_utf8 "[}")
    (Raised (HTTPException 400 "Bad Request"
               "The browser (or proxy) sent a request that this server could not understand.")).

(** The signature header of [interaction j], and the same text with its
    second character in upper case. *)
Definition signature_text : string :=
  hexlify (stub_sign (encode_utf8 "1762140307" ++ encode_utf8 "{}")).

Definition signature_text_upper : string :=
  match signature_text with
  | String c0 (String _ rest) => String c0 (String "C" rest)
  | other => other
  end.

Definition interaction_upper (j : value) : Request :=
  mkRequest
    [("X-Signature-Ed25519", signature_text_upper);
     ("X-Signature-Timestamp", "1762140307");
     ("Content-Type", "application/json")]
    (encode_utf8 "{}") (encode_utf8 "{}") (Returned j).

(** Payloads for the display name. *)
Definition blank_nick : dict :=
  [("member", VDict [("nick", VStr "");
                     ("user", VDict [("global_name", VStr "robert");
                                     ("username", VStr "rob123")])])].

Definition no_nick : dict :=
  [("member", VDict [("user", VDict [("global_name", VStr "robert");
                                     ("username", VStr "rob123")])])].

Definition all_blank : dict :=
  [("member", VDict [("nick", VStr "");
                     ("user", VDict [("global_name", VStr "");
                                     ("username", VStr "")])])].


(** A member whose user object holds an empty global name and nothing else,
    beside a user entry at top level; and the same payload with the global
    name removed. *)
Definition lone_blank_global : dict :=
  [("member", VDict [("user", VDict [("global_name", VStr "")])]);
   ("user", VDict [("username", VStr "top")])].

Definition lone_global_removed : dict :=
  [("member", VDict [("user", VDict (dict_del "global_name"
                                       [("global_name", VStr "")]))]);
   ("user", VDict [("username", VStr "top")])].

(** Payloads whose member entry is a number. *)
Definition start_by_number : value :=
  VDict [("type", VInt 2);
         ("data", VDict [("name", VStr "start")]);
         ("member", VInt 5)].

Definition dance_by_number : value :=
  VDict [("type", VInt 2);
         ("data", VDict [("name", VStr "dance")]);
         ("member", VInt 5)].

Definition dance_by_bob : dict :=
  [("type", VInt 2);
   ("data", VDict [("name", VStr "dance")]);
   ("member", bob)].

(** Payloads that name a command and are out of shape elsewhere. *)
Definition end_by_number : value :=
  VDict [("type", VInt 2);
         ("data", VDict [("name", VStr "end")]);
         ("member", VInt 5)].

Definition work_done_options_number : value :=
  VDict [("type", VInt 2);
         ("data", VDict [("name", VStr "work_done"); ("options", VInt 5)]);
         ("member", bob)].

(** ** Notions the statements use *)

(** The world after the verifier has logged its warning about [e]. *)
Definition warned (e : exn) (w : World) : World :=
  mkWorld (sheet_rows w) (outside_calls w)
          (log w ++ [mkLog WARNING "Signature verification failed: " (Some e)]).


(** The verifier has accepted the request in world [w]. *)
Definition verified (X : Externals) (cfg : Config) (req : Request) (w : World)
  : Prop :=
  fst (verify_discord_request X cfg req w) = Returned true.

(** Two lists that differ in exactly one position. *)
Inductive one_changed {A : Type} : list A -> list A -> Prop :=
| changed_here (a b : A) (l : list A) :
    a <> b -> one_changed (a :: l) (b :: l)
| changed_later (a : A) (l l' : list A) :
    one_changed l l' -> one_changed (a :: l) (a :: l').

(** The request carries a valid Ed25519 signature, by the configured key, of
    its timestamp followed by the bytes [bs]. *)
Definition signed_over (X : Externals) (cfg : Config) (req : Request)
    (bs : list byte) : Prop :=
  exists (s ts : string) (key sig : list byte),
    headers_find (headers req) "X-Signature-Ed25519" = Some s /\
    headers_find (headers req) "X-Signature-Timestamp" = Some ts /\
    bytes_fromhex (DISCORD_PUBLIC_KEY cfg) = Some key /\
    List.length key = 32%nat /\
    bytes_fromhex s = Some sig /\
    List.length sig = 64%nat /\
    ed25519_verify X key (encode_utf8 ts ++ bs) sig = true.

(** The request carries a valid Ed25519 signature, by the configured key, of
    its timestamp followed by [request.data]. *)
Definition signed_by (X : Externals) (cfg : Config) (req : Request) : Prop :=
  exists (s ts : string) (key sig : list byte),
    headers_find (headers req) "X-Signature-Ed25519" = Some s /\
    headers_find (headers req) "X-Signature-Timestamp" = Some ts /\
    bytes_fromhex (DISCORD_PUBLIC_KEY cfg) = Some key /\
    List.length key = 32%nat /\
    bytes_fromhex s = Some sig /\
    List.length sig = 64%nat /\
    ed25519_verify X key (encode_utf8 ts ++ data req) sig = true.

(** What the verifier hands to Ed25519 for a request: the message and the
    signature. *)
Definition submitted (req : Request) (msg sig : list byte) : Prop :=
  exists s ts : string,
    headers_find (headers req) "X-Signature-Ed25519" = Some s /\
    headers_find (headers req) "X-Signature-Timestamp" = Some ts /\
    bytes_fromhex s = Some sig /\
    msg = (encode_utf8 ts ++ data req)%list.

(** Ed25519 refuses whatever differs from the message [msg] and its
    signature [sig] in one byte.  This is what the scheme is used for; it is
    assumed of the primitive where it is needed, and holds of no stand-in
    that looks at less than the whole message. *)
Definition refuses_changes (X : Externals) (key msg sig : list byte) : Prop :=
  forall msg' sig' : list byte,
    (one_changed msg msg' /\ sig' = sig) \/ (msg' = msg /\ one_changed sig sig') ->
    ed25519_verify X key msg' sig' = false.

(** [req'] is [req] with one byte of the body, of the timestamp or of the
    decoded signature changed. *)
Inductive tampered (req req' : Request) : Prop :=
| body_changed :
    headers req' = headers req ->
    one_changed (body req) (body req') ->
    tampered req req'
| timestamp_changed (ts ts' : string) :
    headers_find (headers req) "X-Signature-Timestamp" = Some ts ->
    headers_find (headers req') "X-Signature-Timestamp" = Some ts' ->
    one_changed (encode_utf8 ts) (encode_utf8 ts') ->
    headers_find (headers req') "X-Signature-Ed25519"
      = headers_find (headers req) "X-Signature-Ed25519" ->
    body req' = body req ->
    tampered req req'
| signature_changed (s s' : string) (sig sig' : list byte) :
    headers_find (headers req) "X-Signature-Ed25519" = Some s ->
    headers_find (headers req') "X-Signature-Ed25519" = Some s' ->
    bytes_fromhex s = Some sig ->
    bytes_fromhex s' = Some sig' ->
    one_changed sig sig' ->
    headers_find (headers req') "X-Signature-Timestamp"
      = headers_find (headers req) "X-Signature-Timestamp" ->
    body req' = body req ->
    tampered req req'.

(** [req'] is [req] with its signature header spelled otherwise: the text
    may differ, the bytes it stands for are the same. *)
Definition respelled (req req' : Request) : Prop :=
  exists (s s' : string) (sig : list byte),
    headers_find (headers req) "X-Signature-Ed25519" = Some s /\
    headers_find (headers req') "X-Signature-Ed25519" = Some s' /\
    bytes_fromhex s = Some sig /\
    bytes_fromhex s' = Some sig /\
    headers_find (headers req') "X-Signature-Timestamp"
      = headers_find (headers req) "X-Signature-Timestamp" /\
    data req' = data req.

(** *** The identity a payload carries *)

(** An entry that is an object, or absent, or a false value such as
    [null]. *)
Definition objectish (o : option value) : bool :=
  match o with
  | None => true
  | Some (VDict _) => true
  | Some v => negb (truthy v)
  end.

(** The member object of a payload, empty when none is given. *)
Definition member_of (d : dict) : dict :=
  match dict_get d "member" with
  | Some (VDict m) => m
  | _ => []
  end.

(** The user object of a payload: the member's when it has entries,
    otherwise the one at top level, empty when none is given. *)
Definition user_of (d : dict) : dict :=
  match dict_get (member_of d) "user" with
  | Some (VDict (kv :: u)) => kv :: u
  | _ =>
      match dict_get d "user" with
      | Some (VDict u) => u
      | _ => []
      end
  end.

Definition nickname (d : dict) : option value :=
  dict_get (member_of d) "nick".
Definition global_name (d : dict) : option value :=
  dict_get (user_of d) "global_name".
Definition username (d : dict) : option value :=
  dict_get (user_of d) "username".

(** The member and user entries of the payload are objects where given. *)
Definition identity_shaped (d : dict) : bool :=
  objectish (dict_get d "member")
  && objectish (dict_get (member_of d) "user")
  && objectish (dict_get d "user").



(** A field that is absent or the empty string. *)
Definition blank (o : option value) : Prop :=
  o = None \/ o = Some (VStr "").

(** Two readings of a field that agree, an empty string counting as absent. *)
Definition blank_alike (a b : option value) : Prop :=
  a = b \/ (blank a /\ blank b).

(** What [o.get(k)] gives for the entry [o[k]]. *)
Definition got (o : option value) : value :=
  match o with
  | Some v => v
  | None => VNone
  end.

(** The [or] chain over the three fields. *)
Definition name_chain (nick gname uname : option value) : outcome value :=
  Returned (got nick) ||| Returned (got gname) ||| Returned (got uname)
  ||| Returned (VStr "Unknown").

(** *** Rows and options *)

(** The display name of a payload from which one can be derived. *)
Definition display_value (d : dict) : value :=
  match extract_user_display (VDict d) with
  | Returned v => v
  | Raised _ => VNone
  end.

(** The row for an action at time [dt]. *)
Definition logged_row (X : Externals) (dt : datetime) (name : value)
    (action : string) (task_title desc : value) : row :=
  [strftime dt "%Y-%m-%d"; py_str X name; action; strftime dt "%H:%M:%S";
   py_str X task_title; py_str X desc].

(** The world after one successful append of [r]. *)
Definition appended (r : row) (w : World) : World :=
  mkWorld (sheet_rows w ++ [r]) (outside_calls w ++ [AppendRow r]) (log w).

(** The world after the handler has logged the fault [e]. *)
Definition error_logged (e : exn) (w : World) : World :=
  mkWorld (sheet_rows w) (outside_calls w)
          (log w ++ [mkLog ERROR "Error handling command" (Some e)]).

(** The value of the option called [name] in a list of option objects: that
    of the first object with the name, the empty string when it has no value
    or no object has the name. *)
Fixpoint option_named (opts : list dict) (name : string) : value :=
  match opts with
  | [] => VStr ""
  | o :: rest =>
      if py_eq_str (got (dict_get o "name")) name
      then match dict_get o "value" with
           | Some v => v
           | None => VStr ""
           end
      else option_named rest name
  end.

(** The command data carries the option objects [opts], or no options. *)
Definition options_of (cd : dict) (opts : list dict) : Prop :=
  (dict_get cd "options" = None /\ opts = []) \/
  dict_get cd "options" = Some (VList (map VDict opts)).

Definition recognized (cmd : string) : Prop :=
  cmd = "start" \/ cmd = "end" \/ cmd = "work_done".

(** The payload's [type] compares equal to [n], as [==] has it: the JSON
    values [true] and [1.0] compare equal to 1. *)
Definition type_is (d : dict) (n : Z) : bool :=
  py_eq_int (got (dict_get d "type")) n.

(** The sheet of [w'] is that of [w], or that of [w] with one row below. *)
Definition grew (w w' : World) : Prop :=
  sheet_rows w' = sheet_rows w \/
  exists r, sheet_rows w' = (sheet_rows w ++ [r])%list.

(** *** Settings *)

(** The variables whose absence stops the start, each with the text of the
    [ValueError] raised for it. *)
Definition required : list (string * string) :=
  [("DISCORD_PUBLIC_KEY", "DISCORD_PUBLIC_KEY env var is required");
   ("DISCORD_TOKEN", "DISCORD_TOKEN env var is required");
   ("DISCORD_APP_ID", "DISCORD_APP_ID env var is required");
   ("GOOGLE_CREDS_JSON", "GOOGLE_CREDS_JSON environment variable not set.")].

(** The record [register_commands] logs when Discord refuses. *)
Definition refusal (status_code : Z) (text : string) : log_entry :=
  mkLog ERROR
        ("Failed to register commands: " ++ str_of_Z status_code ++ " " ++ text)
        None.

(** *** Further notions *)

(** The names of the commands [COMMANDS] registers. *)
Definition registered_names : list string :=
  match COMMANDS with
  | VList cs =>
      flat_map (fun c =>
                  match c with
                  | VDict d =>
                      match dict_get d "name" with
                      | Some (VStr n) => [n]
                      | _ => []
                      end
                  | _ => []
                  end) cs
  | _ => []
  end.

(** The command data of a payload: the object under [data], empty when the
    payload has no such entry. *)
Definition data_of (d cd : dict) : Prop :=
  (dict_get d "data" = None /\ cd = []) \/
  dict_get d "data" = Some (VDict cd).

(** The record [register_commands] logs for a response. *)
Definition registration_record (status_code : Z) (text : string) : log_entry :=
  if (status_code =? 200) || (status_code =? 201)
  then mkLog INFO "Slash commands registered successfully." None
  else refusal status_code text.

(** The outside calls of [w'] are those of [w], or those of [w] followed by
    one append to the sheet. *)
Definition called_at_most_once (w w' : World) : Prop :=
  outside_calls w' = outside_calls w \/
  exists r, outside_calls w' = (outside_calls w ++ [AppendRow r])%list.

(** The clock cannot be read: the time zone is not known.  [ZoneInfo] raises
    [ZoneInfoNotFoundError], which is a [KeyError]. *)
Definition clock_down : Externals :=
  mkExternals stub_verify (fun _ => "?") stub_int
    (fun _ => Raised (KeyError "'No time zone found with key Asia/Kolkata'"))
    (fun _ _ => None) (fun _ _ => None)
    (fun _ _ _ => Returned (200, "[]"))
    (fun _ => None).

(** The sheet cannot be opened. *)
Definition sheet_missing : Externals :=
  mkExternals stub_verify (fun _ => "?") stub_int
    (fun _ => Returned morning) (fun _ _ => None)
    (fun _ _ => Some (OutsideError "SpreadsheetNotFound" "Daily Logs"))
    (fun _ _ _ => Returned (200, "[]"))
    (fun _ => None).

(** A [work_done] whose options are an object in place of a list. *)
Definition work_done_options_object : dict :=
  [("type", VInt 2);
   ("data", VDict [("name", VStr "work_done");
                   ("options", VDict [("task_title", VStr "Fix bug")])]);
   ("member", bob)].

(** A command whose [data] entry is [null]. *)
Definition command_data_null : dict :=
  [("type", VInt 2); ("data", VNone); ("member", bob)].

(** The first fault met when [work_done] reads its two options from [o]. *)
Definition options_fault (o : value) : option exn :=
  match option_value o "task_title" (VStr "") with
  | Raised e => Some e
  | Returned _ =>
      match option_value o "desc" (VStr "") with
      | Raised e => Some e
      | Returned _ => None
      end
  end.



(** Payloads that differ in the user entry at top level only. *)
Definition bob_with_stranger : dict :=
  [("member", bob); ("user", VDict [("username", VStr "stranger")])].

Definition bob_alone : dict := [("member", bob)].

(** The environment of [full_env] with a port that is no number. *)
Definition port_env : environ := ("PORT", "http") :: full_env.

(** The world after [load_config] has run in an environment with no guild
    id. *)
Definition loaded_world : World :=
  mkWorld [] [OpenSheet "{}" "Daily Logs"]
    [mkLog WARNING
       "DISCORD_GUILD_ID not set — commands will register globally and may take up to 1 hour."
       None].

(** What [option_value] raises for options that are true and no list. *)
Definition options_error (o : value) : exn :=
  match o with
  | VDict _ | VStr _ => AttributeError "str" "get"
  | _ => TypeErrorNotIterable (type_name o)
  end.

(** The environment of [full_env] with credentials that are no JSON, and
    libraries that say so. *)
Definition broken_env : environ :=
  [("DISCORD_PUBLIC_KEY", key_hex); ("DISCORD_TOKEN", "bot-token");
   ("DISCORD_APP_ID", "4242"); ("GOOGLE_CREDS_JSON", "{")].

Definition creds_broken : Externals :=
  mkExternals stub_verify (fun _ => "?") stub_int
    (fun _ => Returned morning) (fun _ _ => None) (fun _ _ => None)
    (fun _ _ _ => Returned (200, "[]"))
    (fun _ => Some (ValueError "Expecting property name enclosed in double quotes: line 1 column 2 (char 1)")).

(** Settles the comparisons of a known command name with the three names. *)
Ltac decide_command :=
  repeat match goal with
         | |- context [py_eq_str (VStr ?a) ?b] =>
             let r := eval vm_compute in (py_eq_str (VStr a) b) in
             change (py_eq_str (VStr a) b) with r
         end;
  cbv iota beta.

Unset Implicit Arguments.

(** * Properties *)

(** ** The model on small inputs *)

Example fromhex_reads_both_cases :
  bytes_fromhex "0C ff" = Some [x0c; xff] /\
  bytes_fromhex "0c FF" = Some [x0c; xff].
Proof. split; reflexivity. Qed.

Example fromhex_refuses_half_a_byte : bytes_fromhex "abc" = None.
Proof. reflexivity. Qed.

Example utf8_accepts_text_and_refuses_latin1 :
  utf8_valid (encode_utf8 "naïve — ✅") = true /\ utf8_valid [xe9] = false.
Proof. split; reflexivity. Qed.

Example strftime_of_morning :
  strftime morning "%Y-%m-%d" = "2026-11-03" /\
  strftime morning "%H:%M:%S" = "09:05:07".
Proof. split; reflexivity. Qed.

Example true_equals_one :
  py_eq_int (VBool true) 1 = true /\
  py_eq_int (VFloat (FNum false 1 0)) 1 = true /\
  py_eq_int (VStr "1") 1 = false.
Proof. repeat split. Qed.

Example option_value_of_sample :
  option_value (VList [VDict fix_bug_option]) "task_title" (VStr "")
    = Returned (VStr "Fix bug") /\
  option_value (VList [VDict fix_bug_option]) "desc" (VStr "")
    = Returned (VStr "") /\
  option_value VNone "desc" (VStr "") = Returned (VStr "") /\
  option_value (VInt 5) "desc" (VStr "")
    = Raised (TypeErrorNotIterable "int").
Proof. repeat split. Qed.

(** ** The verifier *)

Lemma encode_utf8_app (a b : string) :
  encode_utf8 (a ++ b) = (encode_utf8 a ++ encode_utf8 b)%list.
Proof.
  unfold encode_utf8, list_byte_of_string.
  induction a as [|c a IH]; simpl; [reflexivity|].
  now rewrite IH.
Qed.

Lemma encode_decoded (ts : string) (bs : list byte) :
  encode_utf8 (ts ++ string_of_list_byte bs) = (encode_utf8 ts ++ bs)%list.
Proof.
  rewrite encode_utf8_app. unfold encode_utf8 at 2.
  now rewrite list_byte_of_string_of_list_byte.
Qed.

(** The verifier never raises: it answers what the guarded body returned, or
    logs a warning and answers [false]. *)
Lemma verify_discord_request_eq X cfg req w :
  verify_discord_request X cfg req w =
  match checked_signature X cfg req with
  | Returned b => (Returned b, w)
  | Raised e => (Returned false, warned e w)
  end.
Proof.
  unfold verify_discord_request, try_except, lift.
  destruct (checked_signature X cfg req); reflexivity.
Qed.

Lemma checked_signature_true X cfg req b :
  checked_signature X cfg req = Returned b -> b = true.
Proof.
  unfold checked_signature, obind.
  repeat match goal with
         | |- context [match ?x with _ => _ end] => destruct x; try discriminate
         end.
  congruence.
Qed.

Lemma verified_world X cfg req w :
  verified X cfg req w ->
  verify_discord_request X cfg req w = (Returned true, w).
Proof.
  unfold verified. rewrite verify_discord_request_eq.
  destruct (checked_signature X cfg req) as [b|e] eqn:E; simpl.
  - now intros [= ->].
  - discriminate.
Qed.

(** The guarded block returns exactly when [request.data] is well-formed
    UTF-8 and carries a valid signature. *)
Lemma checked_signature_accepts X cfg req :
  checked_signature X cfg req = Returned true <->
  utf8_valid (data req) = true /\ signed_by X cfg req.
Proof.
  unfold checked_signature, signed_by, headers_getitem, fromhex, decode_utf8,
    VerifyKey, VerifyKey_verify.
  split.
  - destruct (headers_find _ "X-Signature-Ed25519") as [s|]; simpl; [|discriminate].
    destruct (headers_find _ "X-Signature-Timestamp") as [ts|]; simpl; [|discriminate].
    destruct (utf8_valid (data req)); simpl; [|discriminate].
    destruct (bytes_fromhex (DISCORD_PUBLIC_KEY cfg)) as [key|]; simpl; [|discriminate].
    destruct (List.length key =? 32)%nat eqn:Lk; simpl; [|discriminate].
    destruct (bytes_fromhex s) as [sig|] eqn:Hs; simpl; [|discriminate].
    destruct (List.length sig =? 64)%nat eqn:Ls; simpl; [|discriminate].
    rewrite encode_decoded.
    destruct (ed25519_verify X key _ sig) eqn:V; simpl; [|discriminate].
    intros _. split; [reflexivity|].
    exists s, ts, key, sig.
    apply Nat.eqb_eq in Lk, Ls. repeat split; assumption.
  - intros [U (s & ts & key & sig & H1 & H2 & H3 & H4 & H5 & H6 & H7)].
    rewrite H1, H2, U. simpl. rewrite H3. simpl.
    rewrite H4. simpl. rewrite H5. simpl. rewrite H6. simpl.
    rewrite encode_decoded, H7. reflexivity.
Qed.

Lemma verified_signed X cfg req w :
  verified X cfg req w ->
  utf8_valid (data req) = true /\ signed_by X cfg req.
Proof.
  unfold verified. rewrite verify_discord_request_eq.
  destruct (checked_signature X cfg req) as [b|e] eqn:E; simpl; [|discriminate].
  intros [= ->]. now apply checked_signature_accepts.
Qed.

(** A body that is not UTF-8 is refused whatever Ed25519 says. *)
Lemma non_utf8_body_refused X cfg req w :
  utf8_valid (data req) = false ->
  fst (verify_discord_request X cfg req w) = Returned false.
Proof.
  intros U. rewrite verify_discord_request_eq.
  destruct (checked_signature X cfg req) as [b|e] eqn:E; [|reflexivity].
  apply checked_signature_true in E as E'. subst b.
  apply checked_signature_accepts in E. destruct E as [E _]. congruence.
Qed.







Lemma one_changed_neq {A : Type} (l l' : list A) :
  one_changed l l' -> l <> l'.
Proof.
  induction 1 as [a b l Hab | a l l' _ IH]; intros E; injection E; auto.
Qed.

Lemma one_changed_length {A : Type} (l l' : list A) :
  one_changed l l' -> List.length l' = List.length l.
Proof. induction 1; simpl; congruence. Qed.

Lemma one_changed_app_head {A : Type} (p l l' : list A) :
  one_changed l l' -> one_changed (p ++ l) (p ++ l').
Proof.
  intros H. induction p as [|a p IH]; simpl; [exact H|].
  now apply changed_later.
Qed.

Lemma one_changed_app_tail {A : Type} (l l' t : list A) :
  one_changed l l' -> one_changed (l ++ t) (l' ++ t).
Proof.
  induction 1 as [a b l Hab | a l l' _ IH]; simpl.
  - now apply changed_here.
  - now apply changed_later.
Qed.

(** The stricter stand-in notices every change of one byte in a message of
    at most 64 bytes, and every change of the signature. *)
Lemma stub_seal_refuses (key msg : list byte) :
  (List.length msg <= 64)%nat ->
  refuses_changes strict key msg (stub_seal msg).
Proof.
  intros L msg' sig' H. simpl. unfold strict_verify, bytes_eqb.
  destruct (list_eq_dec Byte.byte_eq_dec sig' (stub_seal msg')) as [E|];
    [exfalso | reflexivity].
  assert (P : forall m : list byte,
             (List.length m <= 64)%nat ->
             firstn (List.length m) (stub_seal m) = m).
  { intros m Lm. unfold stub_seal. rewrite firstn_firstn, Nat.min_l by exact Lm.
    rewrite firstn_app, firstn_all, Nat.sub_diag. simpl.
    now rewrite app_nil_r. }
  destruct H as [[C ->] | [-> C]].
  - apply one_changed_neq in C as N. apply one_changed_length in C.
    apply N. rewrite <- (P msg L), <- (P msg') by (rewrite C; exact L).
    now rewrite E, C.
  - apply one_changed_neq in C. now apply C.
Qed.

(** C2, as the code has it.  A request whose body Flask hands over as sent,
    well-formed UTF-8, with a valid Ed25519 signature of timestamp and body,
    is accepted.  When one byte of the body, of the timestamp or of the
    decoded signature is changed, the verifier hands Ed25519 a message or a
    signature that differs in one byte, and returns [False] if Ed25519
    refuses such a pair.  A signature header spelled otherwise, for the same
    bytes, is accepted as before. *)
Theorem signature_verdict X cfg req w :
  data req = body req ->
  utf8_valid (body req) = true ->
  signed_over X cfg req (body req) ->
  verify_discord_request X cfg req w = (Returned true, w) /\
  (forall (req' : Request) (key msg sig : list byte),
     bytes_fromhex (DISCORD_PUBLIC_KEY cfg) = Some key ->
     submitted req msg sig ->
     refuses_changes X key msg sig ->
     tampered req req' ->
     data req' = body req' ->
     exists e,
       verify_discord_request X cfg req' w = (Returned false, warned e w)) /\
  (forall req' : Request,
     respelled req req' ->
     verify_discord_request X cfg req' w = (Returned true, w)).
Proof.
  intros D U S.
  assert (S' : signed_by X cfg req) by (unfold signed_by; now rewrite D).
  rewrite <- D in U. clear S.
  split; [|split].
  - rewrite verify_discord_request_eq.
    now rewrite (proj2 (checked_signature_accepts X cfg req) (conj U S')).
  - intros req' key msg sig K (s & ts & Hs & Hts & Hsig & ->) RC T D'.
    rewrite verify_discord_request_eq.
    destruct (checked_signature X cfg req') as [b|e] eqn:E; [|eauto].
    exfalso. apply checked_signature_true in E as Hb. subst b.
    apply checked_signature_accepts in E.
    destruct E as [_ (s' & ts' & key' & sig' & H1 & H2 & H3 & _ & H5 & _ & H7)].
    assert (key' = key) by congruence. subst key'.
    enough (F : ed25519_verify X key (encode_utf8 ts' ++ data req') sig' = false)
      by congruence.
    apply RC. rewrite D, D'.
    destruct T as [Hh Hd | t t' Ht Ht' Hc Hsame Hd
                  | x x' g g' Hx Hx' Hg Hg' Hc Hsame Hd].
    + left. rewrite Hh in H1, H2.
      assert (ts' = ts) by congruence. assert (s' = s) by congruence.
      subst ts' s'. split; [|congruence].
      now apply one_changed_app_head.
    + left. assert (t = ts) by congruence. assert (t' = ts') by congruence.
      subst t t'. rewrite Hsame in H1. assert (s' = s) by congruence.
      subst s'. rewrite Hd. split; [|congruence].
      now apply one_changed_app_tail.
    + right. assert (x = s) by congruence. assert (x' = s') by congruence.
      subst x x'. assert (g = sig) by congruence.
      assert (g' = sig') by congruence. subst g g'.
      rewrite Hsame in H2. assert (ts' = ts) by congruence. subst ts'.
      rewrite Hd. split; [reflexivity | exact Hc].
  - intros req' (s & s' & sig & Hs & Hs' & Hx & Hx' & Hts & Hd).
    destruct S' as (s0 & ts & key & sig0 & H1 & H2 & H3 & H4 & H5 & H6 & H7).
    assert (s0 = s) by congruence. subst s0.
    assert (sig0 = sig) by congruence. subst sig0.
    rewrite verify_discord_request_eq.
    rewrite (proj2 (checked_signature_accepts X cfg req')); [reflexivity|].
    split; [now rewrite Hd|].
    exists s', ts, key, sig. rewrite Hts, Hd. repeat split; assumption.
Qed.

Lemma signature_verdict_witness :
  verify_discord_request strict sample_cfg sealed_ping empty_world
  = (Returned true, empty_world) /\
  exists e,
    verify_discord_request strict sample_cfg sealed_ping_changed empty_world
    = (Returned false, warned e empty_world).
Proof.
  assert (S : signed_over strict sample_cfg sealed_ping (body sealed_ping)).
  { exists (hexlify (stub_seal (encode_utf8 "1762140307" ++ encode_utf8 "{}"))),
      "1762140307", key_bytes,
      (stub_seal (encode_utf8 "1762140307" ++ encode_utf8 "{}")).
    repeat split. }
  destruct (signature_verdict strict sample_cfg sealed_ping empty_world
              eq_refl eq_refl S) as [A [B _]].
  split; [exact A|].
  apply (B sealed_ping_changed key_bytes
           (encode_utf8 "1762140307" ++ encode_utf8 "{}")%list
           (stub_seal (encode_utf8 "1762140307" ++ encode_utf8 "{}"))).
  - reflexivity.
  - exists (hexlify (stub_seal (encode_utf8 "1762140307" ++ encode_utf8 "{}"))),
      "1762140307".
    repeat split.
  - apply stub_seal_refuses. vm_compute. lia.
  - apply body_changed; [reflexivity|].
    apply changed_here. discriminate.
  - reflexivity.
Defined.

(** C2, as stated, fails in three places.  A request whose body is the byte
    0xE9 carries a valid signature and is refused.  A request with a form
    content type carries a valid signature of its timestamp and the body it
    sends, and is refused: [request.data] is empty, and the signature is not
    one of the timestamp alone.  And writing one letter of the hexadecimal
    signature header in upper case changes one byte of the header, yet the
    request is accepted as before. *)
Lemma valid_signature_refused :
  (signed_by fair sample_cfg latin1_request /\
   verify_discord_request fair sample_cfg latin1_request empty_world
     = (Returned false, warned UnicodeDecodeError empty_world) /\
   forall (X : Externals) (w : World),
     fst (verify_discord_request X sample_cfg latin1_request w)
       = Returned false) /\
  (signed_over fair sample_cfg form_honest (body form_honest) /\
   utf8_valid (body form_honest) = true /\
   data form_honest = [] /\
   verify_discord_request fair sample_cfg form_honest empty_world
     = (Returned false, warned BadSignatureError empty_world)) /\
  (verified fair sample_cfg (interaction pong) empty_world /\
   one_changed (encode_utf8 signature_text) (encode_utf8 signature_text_upper) /\
   verified fair sample_cfg (interaction_upper pong) empty_world).
Proof.
  split; [split; [|split] | split; [split; [|split; [|split]] | split; [|split]]].
  - exists (hexlify (stub_sign (encode_utf8 "1762140307" ++ [xe9]))),
      "1762140307", key_bytes,
      (stub_sign (encode_utf8 "1762140307" ++ [xe9])).
    vm_compute. intuition reflexivity.
  - vm_compute. reflexivity.
  - intros X w. now apply non_utf8_body_refused.
  - exists (hexlify (stub_sign (encode_utf8 "1762140307" ++ encode_utf8 "type=1"))),
      "1762140307", key_bytes,
      (stub_sign (encode_utf8 "1762140307" ++ encode_utf8 "type=1")).
    vm_compute. intuition reflexivity.
  - reflexivity.
  - reflexivity.
  - vm_compute. reflexivity.
  - vm_compute. reflexivity.
  - vm_compute. apply changed_later, changed_here. discriminate.
  - vm_compute. reflexivity.
Qed.

(** ** PING *)

(** C9. A verified payload with [type] 1 is answered with exactly
    [{"type": 1}]; the world is left as it was: no call goes out and no row
    is written. *)
Theorem ping_pong X cfg req w d :
  verified X cfg req w ->
  json req = Returned (VDict d) ->
  dict_get d "type" = Some (VInt 1) ->
  post_interactions X cfg req w = (JsonResponse 200 (VDict [("type", VInt 1)]), w).
Proof.
  intros V J T. apply verified_world in V.
  unfold post_interactions, flask_view, interactions, bind.
  rewrite V. simpl. rewrite J. unfold lift, py_or.
  destruct d as [|kv d']; [discriminate|].
  simpl truthy. cbv iota. unfold py_get. rewrite T. reflexivity.
Qed.

Lemma ping_pong_witness :
  post_interactions fair sample_cfg (interaction pong) empty_world
    = (JsonResponse 200 (VDict [("type", VInt 1)]), empty_world).
Proof.
  apply (ping_pong fair sample_cfg (interaction pong) empty_world
           [("type", VInt 1)]); reflexivity.
Defined.

(** ** The display name *)

Lemma or_else_falsy (v : value) (b : outcome value) :
  truthy v = false -> Returned v ||| b = b.
Proof. intros H. unfold or_else. simpl. now rewrite H. Qed.

Lemma or_else_truthy (v : value) (b : outcome value) :
  truthy v = true -> Returned v ||| b = Returned v.
Proof. intros H. unfold or_else. simpl. now rewrite H. Qed.

(** [or] may be bracketed either way. *)
Lemma or_else_assoc (a b c : outcome value) :
  a ||| b ||| c = a ||| (b ||| c).
Proof.
  unfold or_else, obind. destruct a as [x|e]; [|reflexivity].
  destruct (truthy x) eqn:T; [now rewrite T | reflexivity].
Qed.

Lemma py_get_dict (d : dict) (k : string) :
  py_get (VDict d) k VNone = Returned (got (dict_get d k)).
Proof. reflexivity. Qed.

(** [x.get(k) or b] for an entry that is an object, absent or false. *)
Lemma pick_object (o : option value) (b : outcome value) :
  objectish o = true ->
  Returned (got o) ||| b
  = match o with
    | Some (VDict (kv :: m)) => Returned (VDict (kv :: m))
    | _ => b
    end.
Proof.
  intros H. destruct o as [v|]; [|reflexivity].
  destruct v as [| | | | | |[|kv m]]; try reflexivity;
    apply or_else_falsy, negb_true_iff; exact H.
Qed.

Lemma member_selected (d : dict) :
  objectish (dict_get d "member") = true ->
  py_get (VDict d) "member" VNone ||| Returned (VDict [])
  = Returned (VDict (member_of d)).
Proof.
  intros H. rewrite py_get_dict, pick_object by assumption. unfold member_of.
  destruct (dict_get d "member") as [[| | | | | |[|kv m]]|]; reflexivity.
Qed.

Lemma user_selected (d : dict) :
  objectish (dict_get (member_of d) "user") = true ->
  objectish (dict_get d "user") = true ->
  py_get (VDict (member_of d)) "user" VNone ||| py_get (VDict d) "user" VNone
  ||| Returned (VDict [])
  = Returned (VDict (user_of d)).
Proof.
  intros H1 H2. rewrite !py_get_dict, or_else_assoc.
  rewrite pick_object by assumption. unfold user_of.
  destruct (dict_get (member_of d) "user") as [[| | | | | |[|kv m]]|];
    try reflexivity;
    rewrite pick_object by assumption;
    destruct (dict_get d "user") as [[| | | | | |[|kv' u]]|]; reflexivity.
Qed.

(** On a payload whose member and user entries are objects, the function is
    the [or] chain over the three fields of the selected objects. *)
Lemma extract_shaped (d : dict) :
  identity_shaped d = true ->
  extract_user_display (VDict d)
  = name_chain (nickname d) (global_name d) (username d).
Proof.
  unfold identity_shaped. intros H.
  apply andb_prop in H. destruct H as [H H3].
  apply andb_prop in H. destruct H as [H1 H2].
  unfold extract_user_display.
  rewrite member_selected by assumption. cbn [obind].
  rewrite user_selected by assumption. cbn [obind].
  rewrite !py_get_dict. reflexivity.
Qed.

Lemma got_blank (o : option value) : blank o -> truthy (got o) = false.
Proof. intros [-> | ->]; reflexivity. Qed.





(** The four resolutions the specification lists. *)
Example resolves_to_nick :
  extract_user_display (VDict [("member", bob)]) = Returned (VStr "Bob").
Proof. reflexivity. Qed.

Example resolves_to_global_name :
  extract_user_display (VDict no_nick) = Returned (VStr "robert").
Proof. reflexivity. Qed.

Example resolves_to_username :
  extract_user_display (VDict [("user", VDict [("username", VStr "rob123")])])
  = Returned (VStr "rob123").
Proof. reflexivity. Qed.

Example resolves_to_unknown :
  extract_user_display (VDict []) = Returned (VStr "Unknown").
Proof. reflexivity. Qed.


(** *** Setting and deleting an entry *)

Lemma dict_get_del_same (d : dict) (k : string) :
  dict_get (dict_del k d) k = None.
Proof.
  unfold dict_del. induction d as [|[k' v] d IH]; simpl; [reflexivity|].
  destruct (String.eqb k' k) eqn:E; simpl; [exact IH|].
  now rewrite E.
Qed.

Lemma dict_get_del_other (d : dict) (k k' : string) :
  k' <> k -> dict_get (dict_del k d) k' = dict_get d k'.
Proof.
  intros N. unfold dict_del.
  induction d as [|[k0 v] d IH]; simpl; [reflexivity|].
  destruct (String.eqb k0 k) eqn:E; simpl.
  - apply String.eqb_eq in E. subst k0.
    apply not_eq_sym, String.eqb_neq in N. now rewrite N.
  - now rewrite IH.
Qed.

Lemma dict_get_set_same (d : dict) (k : string) (v : value) :
  dict_get (dict_set k v d) k = Some v.
Proof. unfold dict_set. simpl. now rewrite String.eqb_refl. Qed.

Lemma dict_get_set_other (d : dict) (k k' : string) (v : value) :
  k' <> k -> dict_get (dict_set k v d) k' = dict_get d k'.
Proof.
  intros N. unfold dict_set. simpl.
  apply not_eq_sym, String.eqb_neq in N as E. rewrite E.
  now apply dict_get_del_other.
Qed.

Lemma or_else_dict (m : dict) :
  Returned (VDict m) ||| Returned (VDict []) = Returned (VDict m).
Proof. destruct m; reflexivity. Qed.

(** The display name of a payload with the member object [m] depends on
    [m] through its entries [user] and [nick] only. *)
Lemma extract_member (d m : dict) :
  extract_user_display (VDict (dict_set "member" (VDict m) d))
  = (let? user := Returned (got (dict_get m "user"))
                  ||| Returned (got (dict_get d "user"))
                  ||| Returned (VDict []) in
     Returned (got (dict_get m "nick")) ||| py_get user "global_name" VNone
     ||| py_get user "username" VNone ||| Returned (VStr "Unknown"))%outcome.
Proof.
  unfold extract_user_display.
  rewrite py_get_dict, dict_get_set_same. simpl got.
  rewrite or_else_dict. cbn [obind].
  rewrite !py_get_dict, dict_get_set_other by discriminate.
  reflexivity.
Qed.

(** An entry set to the empty string and the entry deleted read alike, at
    every key. *)
Lemma set_blank_alike_del (k k' : string) (u : dict) :
  blank_alike (dict_get (dict_set k (VStr "") u) k') (dict_get (dict_del k u) k').
Proof.
  destruct (string_dec k' k) as [-> | N].
  - rewrite dict_get_set_same, dict_get_del_same.
    right. split; [right | left]; reflexivity.
  - rewrite dict_get_set_other, dict_get_del_other by exact N.
    left. reflexivity.
Qed.

(** The end of the [or] chain for two user objects whose names agree, an
    empty string counting as absent. *)
Lemma chain_blank_alike (n : outcome value) (u u' : dict) :
  blank_alike (dict_get u "global_name") (dict_get u' "global_name") ->
  blank_alike (dict_get u "username") (dict_get u' "username") ->
  n ||| py_get (VDict u) "global_name" VNone
    ||| py_get (VDict u) "username" VNone ||| Returned (VStr "Unknown")
  = n ||| py_get (VDict u') "global_name" VNone
      ||| py_get (VDict u') "username" VNone ||| Returned (VStr "Unknown").
Proof.
  intros G U. rewrite !py_get_dict, !or_else_assoc. f_equal.
  assert (step : forall (a b : option value) (r r' : outcome value),
             blank_alike a b -> r = r' ->
             Returned (got a) ||| r = Returned (got b) ||| r').
  { intros a b r r' [-> | [Ba Bb]] ->; [reflexivity|].
    now rewrite !or_else_falsy by now apply got_blank. }
  repeat apply step; trivial.
Qed.

(** C10, as the code has it.  An identity field that is the empty string is
    treated as an absent one, but for one case.  Two payloads whose name
    fields, read from the objects the code selects, agree up to
    empty-or-absent resolve alike.  A payload whose nickname is the empty
    string resolves as the payload without the nickname.  A payload with an
    empty entry in the user object at top level resolves as the payload
    without that entry; so does a payload with an empty entry in the user
    object of the member, as long as that object holds another entry.  A
    blank nickname resolves to the global name, and three blank fields
    resolve to ["Unknown"]. *)
Theorem blank_field_is_absent :
  (forall d d' : dict,
     identity_shaped d = true -> identity_shaped d' = true ->
     blank_alike (nickname d) (nickname d') ->
     blank_alike (global_name d) (global_name d') ->
     blank_alike (username d) (username d') ->
     extract_user_display (VDict d) = extract_user_display (VDict d')) /\
  (forall d m : dict,
     extract_user_display
       (VDict (dict_set "member" (VDict (dict_set "nick" (VStr "") m)) d))
     = extract_user_display
         (VDict (dict_set "member" (VDict (dict_del "nick" m)) d))) /\
  (forall (d t : dict) (k : string),
     extract_user_display
       (VDict (dict_set "user" (VDict (dict_set k (VStr "") t)) d))
     = extract_user_display
         (VDict (dict_set "user" (VDict (dict_del k t)) d))) /\
  (forall (d m u : dict) (k : string),
     dict_del k u <> [] ->
     extract_user_display
       (VDict (dict_set "member"
                 (VDict (dict_set "user" (VDict (dict_set k (VStr "") u)) m))
                 d))
     = extract_user_display
         (VDict (dict_set "member"
                   (VDict (dict_set "user" (VDict (dict_del k u)) m)) d))) /\
  extract_user_display (VDict blank_nick) = Returned (VStr "robert") /\
  extract_user_display (VDict all_blank) = Returned (VStr "Unknown").
Proof.
  split; [|split; [|split; [|split; [|split; reflexivity]]]].
  - intros d d' S S' Hn Hg Hu.
    rewrite (extract_shaped _ S), (extract_shaped _ S').
    unfold name_chain. rewrite !or_else_assoc.
    assert (step : forall (a b : option value) (r r' : outcome value),
               blank_alike a b -> r = r' ->
               Returned (got a) ||| r = Returned (got b) ||| r').
    { intros a b r r' [-> | [Ba Bb]] ->; [reflexivity|].
      now rewrite !or_else_falsy by now apply got_blank. }
    repeat apply step; trivial.
  - intros d m. rewrite !extract_member.
    rewrite dict_get_set_same, dict_get_del_same.
    rewrite dict_get_set_other, dict_get_del_other by discriminate.
    destruct (_ ||| _ ||| Returned (VDict [])) as [user|e]; [|reflexivity].
    cbn [obind]. rewrite !or_else_assoc.
    now rewrite !or_else_falsy by reflexivity.
  - intros d t k. unfold extract_user_display.
    rewrite !py_get_dict.
    rewrite !(dict_get_set_other d "user" "member") by discriminate.
    rewrite !dict_get_set_same. cbn [got].
    destruct (Returned (got (dict_get d "member")) ||| Returned (VDict []))
      as [m|e]; [|reflexivity].
    cbn [obind].
    destruct (py_get m "user" VNone) as [x|e]; [|reflexivity].
    destruct (truthy x) eqn:Tx.
    + now rewrite !(or_else_truthy x _ Tx).
    + rewrite !(or_else_falsy x _ Tx), !or_else_dict. cbn [obind].
      apply chain_blank_alike; apply set_blank_alike_del.
  - intros d m u k N. rewrite !extract_member.
    rewrite !dict_get_set_same, !dict_get_set_other by discriminate.
    simpl got.
    rewrite !or_else_assoc.
    rewrite (or_else_truthy (VDict (dict_set k (VStr "") u))) by reflexivity.
    rewrite (or_else_truthy (VDict (dict_del k u)))
      by (simpl; destruct (dict_del k u); [now destruct N | reflexivity]).
    cbn [obind].
    apply chain_blank_alike; apply set_blank_alike_del.
Qed.

Lemma blank_field_is_absent_witness :
  extract_user_display (VDict blank_nick) = extract_user_display (VDict no_nick).
Proof.
  apply (proj1 blank_field_is_absent blank_nick no_nick);
    try reflexivity; try (left; reflexivity).
  right. split; [right | left]; reflexivity.
Defined.

(** C10, as stated, fails when the empty field is the only entry of the
    member's user object.  With an empty global name there and a username in
    the user object at top level, the member's user object is used and the
    name is ["Unknown"]; with the global name removed the object is empty,
    the user object at top level is used in its place, and the name is its
    username.  Both payloads have objects for member and user. *)
Lemma blank_name_blocks_fallback :
  identity_shaped lone_blank_global = true /\
  identity_shaped lone_global_removed = true /\
  extract_user_display (VDict lone_blank_global) = Returned (VStr "Unknown") /\
  extract_user_display (VDict lone_global_removed) = Returned (VStr "top").
Proof. repeat split. Qed.

(** ** The handler *)

Lemma py_or_dict (d : dict) : py_or (VDict d) (VDict []) = VDict d.
Proof. destruct d; reflexivity. Qed.

(** A verified type 2 interaction reaches the guarded block once its command
    name and display name are read, and a fault of the name extraction leaves
    the handler before the block. *)
Lemma interactions_command X cfg req w d cd :
  verified X cfg req w ->
  json req = Returned (VDict d) ->
  dict_get d "type" = Some (VInt 2) ->
  dict_get d "data" = Some (VDict cd) ->
  interactions X cfg req w =
  match extract_user_display (VDict d) with
  | Returned name =>
      try_except
        (commands X cfg (VDict d) (got (dict_get cd "name")) name) on_error w
  | Raised e => (Raised e, w)
  end.
Proof.
  intros V J T D. apply verified_world in V.
  unfold interactions, bind. rewrite V. simpl. rewrite J. unfold lift.
  rewrite py_or_dict. unfold py_get at 1 2. rewrite T. simpl.
  rewrite D, py_get_dict.
  destruct (extract_user_display (VDict d)); reflexivity.
Qed.

Lemma log_to_sheet_ok X cfg w dt name action task_title desc :
  datetime_now X (TZ cfg) = Returned dt ->
  append_row_fault X (sheet_rows w)
    (logged_row X dt name action task_title desc) = None ->
  log_to_sheet X cfg name (VStr action) task_title desc w
  = (Returned tt, appended (logged_row X dt name action task_title desc) w).
Proof.
  intros N A. unfold log_to_sheet, bind, now_ist, lift. rewrite N.
  unfold append_row. simpl py_str. fold (logged_row X dt name action task_title desc).
  rewrite A. reflexivity.
Qed.

Lemma option_loop_named (opts : list dict) (name : string) :
  option_loop (map VDict opts) name (VStr "")
  = Returned (option_named opts name).
Proof.
  induction opts as [|o opts IH]; simpl; [reflexivity|].
  unfold got.
  destruct (py_eq_str _ name); [|exact IH].
  destruct (dict_get o "value"); reflexivity.
Qed.

Lemma option_value_named (opts : list dict) (name : string) :
  option_value (VList (map VDict opts)) name (VStr "")
  = Returned (option_named opts name).
Proof.
  unfold option_value. destruct opts as [|o opts]; [reflexivity|].
  simpl truthy. cbv iota. simpl negb. cbv iota.
  simpl py_iter. cbn [obind]. apply (option_loop_named (o :: opts)).
Qed.

Lemma options_read (d cd : dict) (opts : list dict) (name : string) :
  dict_get d "data" = Some (VDict cd) ->
  options_of cd opts ->
  (let? x := py_get (VDict d) "data" (VDict []) in
   py_get x "options" (VList []))%outcome
  = Returned (VList (map VDict opts)).
Proof.
  intros D [[O ->] | O]; unfold py_get; rewrite D; simpl; now rewrite O.
Qed.

Lemma or_else_returns (x y : outcome value) :
  (exists v, x = Returned v) -> (exists v, y = Returned v) ->
  exists v, x ||| y = Returned v.
Proof.
  intros [v ->] [v' ->]. unfold or_else. simpl.
  destruct (truthy v); eauto.
Qed.

Lemma name_chain_returns (a b c : option value) :
  exists v, name_chain a b c = Returned v.
Proof.
  unfold name_chain. repeat apply or_else_returns; eauto.
Qed.

Lemma extract_display (d : dict) :
  identity_shaped d = true ->
  extract_user_display (VDict d) = Returned (display_value d).
Proof.
  intros S. unfold display_value. rewrite (extract_shaped _ S).
  destruct (name_chain_returns (nickname d) (global_name d) (username d))
    as [v ->].
  reflexivity.
Qed.

(** Whatever the guarded block returns is a reply of type 4. *)
Lemma commands_reply X cfg data cmd name w body w' :
  commands X cfg data cmd name w = (Returned body, w') ->
  exists content, body = reply content.
Proof.
  unfold commands, bind, lift, ret.
  destruct (py_eq_str cmd "start").
  { destruct (log_to_sheet _ _ _ _ _ _ w) as [[[]|e] w1]; intros [= <- <-];
      eauto. }
  destruct (py_eq_str cmd "end").
  { destruct (log_to_sheet _ _ _ _ _ _ w) as [[[]|e] w1]; intros [= <- <-];
      eauto. }
  destruct (py_eq_str cmd "work_done").
  { destruct (obind _ _) as [options|e]; [|discriminate].
    destruct (option_value options "task_title" _) as [t|e]; [|discriminate].
    destruct (option_value options "desc" _) as [ds|e]; [|discriminate].
    destruct (log_to_sheet _ _ _ _ _ _ w) as [[[]|e] w1]; intros [= <- <-];
      eauto. }
  intros [= <- <-]. eauto.
Qed.

Lemma log_to_sheet_fault X cfg w dt name action task_title desc e :
  datetime_now X (TZ cfg) = Returned dt ->
  append_row_fault X (sheet_rows w)
    (logged_row X dt name action task_title desc) = Some e ->
  log_to_sheet X cfg name (VStr action) task_title desc w
  = (Raised e,
     mkWorld (sheet_rows w)
       (outside_calls w
        ++ [AppendRow (logged_row X dt name action task_title desc)])
       (log w)).
Proof.
  intros N A. unfold log_to_sheet, bind, now_ist, lift. rewrite N.
  unfold append_row. simpl py_str.
  fold (logged_row X dt name action task_title desc).
  rewrite A. reflexivity.
Qed.

(** C3, as the code has it.  A verified type 2 interaction named [start],
    [end] or [work_done], whose member and user entries are objects and whose
    options are a list of objects, appends exactly one row when the clock and
    the append answer: action [Start] or [End] with empty title and
    description, or action [Task] with the values of the options
    [task_title] and [desc] (the empty string when absent); the reply names
    the user, or echoes title and description.  When the append raises, no
    row is appended and the reply carries the error. *)
Theorem command_logs_one_row X cfg req w d cd cmd opts dt :
  verified X cfg req w ->
  json req = Returned (VDict d) ->
  dict_get d "type" = Some (VInt 2) ->
  dict_get d "data" = Some (VDict cd) ->
  dict_get cd "name" = Some (VStr cmd) ->
  identity_shaped d = true ->
  options_of cd opts ->
  datetime_now X (TZ cfg) = Returned dt ->
  ((forall r, append_row_fault X (sheet_rows w) r = None) ->
   (cmd = "start" ->
    post_interactions X cfg req w =
    (JsonResponse 200
       (reply ("🟢 Start logged for **" ++ py_str X (display_value d) ++ "**")),
     appended (logged_row X dt (display_value d) "Start" (VStr "") (VStr "")) w))
   /\
   (cmd = "end" ->
    post_interactions X cfg req w =
    (JsonResponse 200
       (reply ("🔴 End logged for **" ++ py_str X (display_value d) ++ "**")),
     appended (logged_row X dt (display_value d) "End" (VStr "") (VStr "")) w))
   /\
   (cmd = "work_done" ->
    post_interactions X cfg req w =
    (JsonResponse 200
       (reply ("✅ Task logged: **"
               ++ py_str X (option_named opts "task_title") ++ "** — "
               ++ py_str X (option_named opts "desc"))),
     appended (logged_row X dt (display_value d) "Task"
                 (option_named opts "task_title") (option_named opts "desc"))
              w)))
  /\
  (forall e,
     (forall r, append_row_fault X (sheet_rows w) r = Some e) ->
     recognized cmd ->
     fst (post_interactions X cfg req w)
     = JsonResponse 200 (reply ("❌ Error: " ++ str_exn e)) /\
     sheet_rows (snd (post_interactions X cfg req w)) = sheet_rows w).
Proof.
  intros V J T D N S O C.
  assert (I := interactions_command _ _ _ _ _ _ V J T D).
  rewrite (extract_display d S), N in I. simpl got in I.
  unfold post_interactions, flask_view. rewrite I. clear I.
  unfold try_except, commands, bind.
  split.
  - intros A. repeat split; intros ->; decide_command.
    + rewrite (log_to_sheet_ok X cfg w dt _ _ _ _ C (A _)). reflexivity.
    + rewrite (log_to_sheet_ok X cfg w dt _ _ _ _ C (A _)). reflexivity.
    + unfold lift. rewrite (options_read d cd opts "" D O).
      rewrite !option_value_named.
      rewrite (log_to_sheet_ok X cfg w dt _ _ _ _ C (A _)). reflexivity.
  - intros e A [-> | [-> | ->]]; decide_command.
    + rewrite (log_to_sheet_fault X cfg w dt _ _ _ _ e C (A _)).
      split; reflexivity.
    + rewrite (log_to_sheet_fault X cfg w dt _ _ _ _ e C (A _)).
      split; reflexivity.
    + unfold lift. rewrite (options_read d cd opts "" D O).
      rewrite !option_value_named.
      rewrite (log_to_sheet_fault X cfg w dt _ _ _ _ e C (A _)).
      split; reflexivity.
Qed.

Lemma command_logs_one_row_witness :
  post_interactions fair sample_cfg (interaction work_done_by_bob) empty_world
  = (JsonResponse 200 (reply "✅ Task logged: **Fix bug** — "),
     mkWorld [["2026-11-03"; "Bob"; "Task"; "09:05:07"; "Fix bug"; ""]]
             [AppendRow ["2026-11-03"; "Bob"; "Task"; "09:05:07"; "Fix bug"; ""]]
             []).
Proof.
  refine (proj2 (proj2 (proj1
    (command_logs_one_row fair sample_cfg (interaction work_done_by_bob)
       empty_world work_done_payload work_done_data "work_done"
       [fix_bug_option] morning _ _ _ _ _ _ _ _) _)) eq_refl);
    try reflexivity.
  right. reflexivity.
Defined.

(** C3, as stated, fails when the sheet refuses the append: the interaction
    is verified and names [start], no row is appended, and the reply carries
    the error in place of the confirmation.  No row is appended either when
    the options of [work_done] are a number, or when the member entry of an
    [end] is one. *)
Lemma failed_append_logs_no_row :
  (verified sheet_down sample_cfg (interaction start_by_bob) empty_world /\
   post_interactions sheet_down sample_cfg (interaction start_by_bob)
     empty_world
   = (JsonResponse 200 (reply "❌ Error: quota exceeded"),
      mkWorld []
              [AppendRow ["2026-11-03"; "Bob"; "Start"; "09:05:07"; ""; ""]]
              [mkLog ERROR "Error handling command"
                     (Some (OutsideError "APIError" "quota exceeded"))])) /\
  post_interactions fair sample_cfg (interaction work_done_options_number)
    empty_world
  = (JsonResponse 200 (reply "❌ Error: 'int' object is not iterable"),
     mkWorld [] []
             [mkLog ERROR "Error handling command"
                    (Some (TypeErrorNotIterable "int"))]) /\
  post_interactions fair sample_cfg (interaction end_by_number) empty_world
  = (ErrorResponse 500 "Internal Server Error",
     crashed "/interactions [POST]" (AttributeError "int" "get") empty_world).
Proof. repeat split. Qed.

(** C4, as the code has it.  For a verified type 2 interaction whose member
    and user entries are objects, every fault raised while the command is
    handled (reading the options, the clock, the append) is caught: the
    response has status 200 and a body of type 4, whose content is the error
    message when a fault was raised. *)
Theorem command_fault_caught X cfg req w d cd cmd :
  verified X cfg req w ->
  json req = Returned (VDict d) ->
  dict_get d "type" = Some (VInt 2) ->
  dict_get d "data" = Some (VDict cd) ->
  dict_get cd "name" = Some (VStr cmd) ->
  recognized cmd ->
  identity_shaped d = true ->
  exists content w',
    post_interactions X cfg req w = (JsonResponse 200 (reply content), w') /\
    forall e w1,
      commands X cfg (VDict d) (VStr cmd) (display_value d) w = (Raised e, w1) ->
      content = "❌ Error: " ++ str_exn e /\ w' = error_logged e w1.
Proof.
  intros V J T D N _ S.
  assert (I := interactions_command _ _ _ _ _ _ V J T D).
  rewrite (extract_display d S), N in I. simpl got in I.
  unfold post_interactions, flask_view. rewrite I. clear I.
  unfold try_except.
  destruct (commands X cfg (VDict d) (VStr cmd) (display_value d) w)
    as [[body|e] w1] eqn:E.
  - destruct (commands_reply _ _ _ _ _ _ _ _ E) as [content ->].
    exists content, w1. split; [reflexivity | discriminate].
  - exists ("❌ Error: " ++ str_exn e), (error_logged e w1).
    split; [reflexivity|]. intros e' w2 [= <- <-]. split; reflexivity.
Qed.

Lemma command_fault_caught_witness :
  exists content w',
    post_interactions sheet_down sample_cfg (interaction work_done_by_bob)
      empty_world = (JsonResponse 200 (reply content), w') /\
    forall e w1,
      commands sheet_down sample_cfg (VDict work_done_payload)
        (VStr "work_done") (display_value work_done_payload) empty_world
        = (Raised e, w1) ->
      content = "❌ Error: " ++ str_exn e /\ w' = error_logged e w1.
Proof.
  apply (command_fault_caught sheet_down sample_cfg
           (interaction work_done_by_bob) empty_world work_done_payload
           work_done_data "work_done"); try reflexivity.
  right. right. reflexivity.
Defined.

(** C4, as stated, fails for a payload whose member entry is a number: the
    interaction is verified and names [start], the name extraction raises
    before the guarded block, and the response is Flask's 500. *)
Lemma extraction_fault_escapes :
  verified fair sample_cfg (interaction start_by_number) empty_world /\
  extract_user_display start_by_number = Raised (AttributeError "int" "get") /\
  post_interactions fair sample_cfg (interaction start_by_number) empty_world
  = (ErrorResponse 500 "Internal Server Error",
     crashed "/interactions [POST]" (AttributeError "int" "get") empty_world).
Proof. repeat split. Qed.

(** A type that is an integer other than [n], or absent, does not compare
    equal to [n]. *)
Lemma type_is_other_int (d : dict) (k n : Z) :
  dict_get d "type" = Some (VInt k) -> k <> n -> type_is d n = false.
Proof.
  intros T N. unfold type_is. rewrite T. simpl. now apply Z.eqb_neq.
Qed.

Lemma type_is_absent (d : dict) (n : Z) :
  dict_get d "type" = None -> type_is d n = false.
Proof. intros T. unfold type_is. now rewrite T. Qed.

(** The only fault [extract_user_display] raises is the [AttributeError] of
    a [get] on what is no object. *)
Lemma extract_raises_attribute (data : value) (e : exn) :
  extract_user_display data = Raised e ->
  exists ty, e = AttributeError ty "get".
Proof.
  assert (G : forall v k dflt e0,
             py_get v k dflt = Raised e0 ->
             exists ty, e0 = AttributeError ty "get").
  { intros v k dflt e0. destruct v; simpl; try discriminate;
      intros [= <-]; eauto. }
  assert (O : forall (a b : outcome value) e0,
             (forall e1, a = Raised e1 -> exists ty, e1 = AttributeError ty "get") ->
             (forall e1, b = Raised e1 -> exists ty, e1 = AttributeError ty "get") ->
             a ||| b = Raised e0 -> exists ty, e0 = AttributeError ty "get").
  { intros [x|ea] b e0 Ha Hb; unfold or_else; simpl.
    - destruct (truthy x); [discriminate | apply Hb].
    - intros [= <-]. now apply Ha. }
  assert (R : forall (v : value) e1,
             Returned v = Raised e1 -> exists ty, e1 = AttributeError ty "get")
    by discriminate.
  unfold extract_user_display.
  destruct (py_get data "member" VNone ||| Returned (VDict [])) as [m|e0] eqn:M;
    cbn [obind].
  - destruct (py_get m "user" VNone ||| py_get data "user" VNone
              ||| Returned (VDict [])) as [u|e0] eqn:U; cbn [obind].
    + apply O; [|apply R]. intros e1. apply O; [|apply G].
      intros e2. apply O; apply G.
    + intros [= <-]. revert U. apply O; [|apply R].
      intros e1. apply O; apply G.
  - intros [= <-]. revert M. apply O; [apply G | apply R].
Qed.

(** C6, as the code has it.  A verified type 2 interaction whose command
    name is none of the three leaves the sheet as it was and calls nothing
    outside.  When its member and user entries are objects, and whenever a
    display name is derived, it is answered with status 200 and the message
    for an unknown command, and the world is as it was; when the name
    extraction raises, the answer is Flask's 500 and only the record of the
    exception is added to the log.  A verified
    interaction whose type compares equal to neither 1 nor 2 leaves the world
    as it was and is answered with status 200 and the message for an
    unsupported type. *)
Theorem unknown_leaves_sheet X cfg req w d :
  verified X cfg req w ->
  json req = Returned (VDict d) ->
  (forall cd cmd,
     dict_get d "type" = Some (VInt 2) ->
     dict_get d "data" = Some (VDict cd) ->
     dict_get cd "name" = Some (VStr cmd) ->
     ~ recognized cmd ->
     (sheet_rows (snd (post_interactions X cfg req w)) = sheet_rows w /\
      outside_calls (snd (post_interactions X cfg req w)) = outside_calls w) /\
     (identity_shaped d = true ->
      post_interactions X cfg req w
      = (JsonResponse 200 (reply "⚠ Unknown command"), w)) /\
     (forall name,
        extract_user_display (VDict d) = Returned name ->
        post_interactions X cfg req w
        = (JsonResponse 200 (reply "⚠ Unknown command"), w)) /\
     (forall e,
        extract_user_display (VDict d) = Raised e ->
        post_interactions X cfg req w
        = (ErrorResponse 500 "Internal Server Error",
           crashed "/interactions [POST]" e w))) /\
  (type_is d 1 = false ->
   type_is d 2 = false ->
   post_interactions X cfg req w
   = (JsonResponse 200 (reply "Unsupported interaction type"), w)).
Proof.
  intros V J. split.
  - intros cd cmd T D N R.
    assert (I := interactions_command _ _ _ _ _ _ V J T D).
    rewrite N in I. simpl got in I.
    assert (E1 : String.eqb cmd "start" = false)
      by (apply String.eqb_neq; intros ->; apply R; left; reflexivity).
    assert (E2 : String.eqb cmd "end" = false)
      by (apply String.eqb_neq; intros ->; apply R; right; left; reflexivity).
    assert (E3 : String.eqb cmd "work_done" = false)
      by (apply String.eqb_neq; intros ->; apply R; right; right; reflexivity).
    assert (C : forall name,
               try_except (commands X cfg (VDict d) (VStr cmd) name) on_error w
               = (Returned (reply "⚠ Unknown command"), w)).
    { intros name. unfold try_except, commands, py_eq_str.
      rewrite E1, E2, E3. reflexivity. }
    unfold post_interactions, flask_view. rewrite I. clear I.
    split; [|split; [|split]].
    + destruct (extract_user_display (VDict d)) as [name|e].
      * now rewrite C.
      * destruct e; split; reflexivity.
    + intros S. now rewrite (extract_display d S), C.
    + intros name E. now rewrite E, C.
    + intros e E. rewrite E.
      destruct (extract_raises_attribute _ _ E) as [ty ->]. reflexivity.
  - unfold type_is. intros T1 T2. apply verified_world in V.
    unfold post_interactions, flask_view, interactions, bind.
    rewrite V. simpl. rewrite J. unfold lift.
    rewrite py_or_dict, py_get_dict, T1, T2. reflexivity.
Qed.

Lemma unknown_leaves_sheet_witness :
  (sheet_rows (snd (post_interactions fair sample_cfg
                      (interaction (VDict dance_by_bob)) empty_world))
   = sheet_rows empty_world /\
   outside_calls (snd (post_interactions fair sample_cfg
                         (interaction (VDict dance_by_bob)) empty_world))
   = outside_calls empty_world) /\
  post_interactions fair sample_cfg (interaction (VDict dance_by_bob))
    empty_world
  = (JsonResponse 200 (reply "⚠ Unknown command"), empty_world).
Proof.
  assert (U : ~ recognized "dance")
    by (intros [H | [H | H]]; discriminate H).
  destruct (proj1 (unknown_leaves_sheet fair sample_cfg
                     (interaction (VDict dance_by_bob)) empty_world
                     dance_by_bob eq_refl eq_refl)
              [("name", VStr "dance")] "dance" eq_refl eq_refl eq_refl U)
    as [A [B _]].
  split; [exact A | exact (B eq_refl)].
Defined.

(** C6, as stated, fails for an unknown command from a payload whose member
    entry is a number: the response is Flask's 500.  And a payload whose
    type is the JSON value [true], which is neither of the numbers, is
    answered as a PING. *)
Lemma unknown_command_not_answered :
  (verified fair sample_cfg (interaction dance_by_number) empty_world /\
   post_interactions fair sample_cfg (interaction dance_by_number) empty_world
   = (ErrorResponse 500 "Internal Server Error",
      crashed "/interactions [POST]" (AttributeError "int" "get")
        empty_world)) /\
  post_interactions fair sample_cfg
    (interaction (VDict [("type", VBool true)])) empty_world
  = (JsonResponse 200 pong, empty_world).
Proof. repeat split. Qed.

(** ** The sheet is only appended to *)

Section AppendOnly.

Variable X : Externals.
Variable cfg : Config.

Lemma log_to_sheet_grew name action task_title desc w :
  grew w (snd (log_to_sheet X cfg name action task_title desc w)).
Proof.
  unfold log_to_sheet, bind, now_ist, lift, append_row, grew.
  destruct (datetime_now X (TZ cfg)) as [dt|e]; simpl; [|now left].
  destruct (append_row_fault X (sheet_rows w) _); simpl; eauto.
Qed.

Lemma logged_then_replied name action task_title desc content w :
  grew w (snd ((log_to_sheet X cfg name action task_title desc ;;
                ret (reply content))%run w)).
Proof.
  unfold bind, ret.
  pose proof (log_to_sheet_grew name action task_title desc w) as G.
  destruct (log_to_sheet X cfg name action task_title desc w) as [[[]|e] w1];
    exact G.
Qed.

Lemma commands_grew data cmd name w :
  grew w (snd (commands X cfg data cmd name w)).
Proof.
  unfold commands.
  destruct (py_eq_str cmd "start"); [apply logged_then_replied|].
  destruct (py_eq_str cmd "end"); [apply logged_then_replied|].
  destruct (py_eq_str cmd "work_done"); [|now left].
  unfold bind at 1, lift at 1.
  destruct (obind _ _) as [options|e]; [|now left].
  unfold bind at 1, lift at 1.
  destruct (option_value options "task_title" _) as [t|e]; [|now left].
  unfold bind at 1, lift at 1.
  destruct (option_value options "desc" _) as [ds|e]; [|now left].
  apply logged_then_replied.
Qed.

Lemma guarded_grew data cmd name w :
  grew w (snd (try_except (commands X cfg data cmd name) on_error w)).
Proof.
  unfold try_except.
  pose proof (commands_grew data cmd name w) as G.
  destruct (commands X cfg data cmd name w) as [[body|e] w1]; exact G.
Qed.

Lemma flask_view_world (route : string) (view : Run value) (w : World) :
  sheet_rows (snd (flask_view route view w)) = sheet_rows (snd (view w)) /\
  outside_calls (snd (flask_view route view w)) = outside_calls (snd (view w)).
Proof.
  unfold flask_view. destruct (view w) as [[body|e] w']; [now split|].
  destruct e; now split.
Qed.

Lemma grew_flask (route : string) (view : Run value) (w : World) :
  grew w (snd (view w)) -> grew w (snd (flask_view route view w)).
Proof.
  unfold grew. destruct (flask_view_world route view w) as [-> _]. auto.
Qed.

(** X1. Whatever the request, the handler leaves the rows of the sheet in
    place and adds at most one below them. *)
Lemma rows_only_appended req w :
  grew w (snd (post_interactions X cfg req w)).
Proof.
  unfold post_interactions. apply grew_flask.
  unfold interactions. unfold bind at 1.
  rewrite verify_discord_request_eq.
  destruct (checked_signature X cfg req) as [b|e] eqn:E; [|now left].
  apply checked_signature_true in E. subst b. simpl negb. cbv iota.
  unfold bind at 1, ret at 1. unfold bind at 1, lift at 1.
  destruct (json req) as [j|e]; [|now left].
  unfold bind at 1, lift at 1.
  destruct (py_get (py_or j (VDict [])) "type" VNone) as [t|e]; [|now left].
  destruct (py_eq_int t 1); [now left|].
  unfold bind at 1, lift at 1.
  destruct (py_eq_int t 2); [|now left].
  unfold bind at 1, lift at 1.
  destruct (obind _ _) as [cmd|e]; [|now left].
  unfold bind at 1, lift at 1.
  destruct (extract_user_display _) as [name|e]; [|now left].
  apply guarded_grew.
Qed.

End AppendOnly.

(** ** Start of the process *)

Lemma main_raises X env w e w' :
  load_config X env w = (Raised e, w') -> main X env w = (Raised e, w').
Proof. intros H. unfold main, bind. now rewrite H. Qed.

(** The first required variable that is not set stops [load_config] with its
    [ValueError], before any call to the outside. *)
Lemma load_config_missing X env w :
  (exists k msg, In (k, msg) required /\ not_set (getenv env k) = true) ->
  exists k msg w',
    In (k, msg) required /\ not_set (getenv env k) = true /\
    load_config X env w = (Raised (ValueError msg), w') /\
    outside_calls w' = outside_calls w /\ sheet_rows w' = sheet_rows w.
Proof.
  intros (k & msg & Hin & Hk). unfold load_config.
  destruct (not_set (getenv env "DISCORD_PUBLIC_KEY")) eqn:E1.
  { exists "DISCORD_PUBLIC_KEY", "DISCORD_PUBLIC_KEY env var is required", w.
    simpl. auto 10. }
  destruct (not_set (getenv env "DISCORD_TOKEN")) eqn:E2.
  { exists "DISCORD_TOKEN", "DISCORD_TOKEN env var is required", w.
    simpl. auto 10. }
  destruct (not_set (getenv env "DISCORD_APP_ID")) eqn:E3.
  { exists "DISCORD_APP_ID", "DISCORD_APP_ID env var is required", w.
    simpl. auto 10. }
  destruct (not_set (getenv env "GOOGLE_CREDS_JSON")) eqn:E4.
  { exists "GOOGLE_CREDS_JSON",
      "GOOGLE_CREDS_JSON environment variable not set.".
    unfold bind, logging, ret, raise.
    destruct (not_set (getenv env "DISCORD_GUILD_ID")); rewrite E4;
      eexists; simpl; auto 10. }
  exfalso. simpl in Hin.
  destruct Hin as [H | [H | [H | [H | []]]]]; injection H as <- <-; congruence.
Qed.

(** C7, as the code has it.  When the public key, the bot token, the
    application id or the credential JSON is absent or empty, the process
    ends with a [ValueError] that names such a variable, before any call to
    the outside and before the server listens.  An absent time zone, sheet
    name or port is no error: the process runs as with [Asia/Kolkata],
    [Daily Logs] and 5000. *)
Theorem missing_setting_fails_fast X env w :
  ((exists k msg, In (k, msg) required /\ not_set (getenv env k) = true) ->
   exists k msg w',
     In (k, msg) required /\ not_set (getenv env k) = true /\
     main X env w = (Raised (ValueError msg), w') /\
     outside_calls w' = outside_calls w /\ sheet_rows w' = sheet_rows w) /\
  (getenv env "TIMEZONE" = None ->
   main X (("TIMEZONE", "Asia/Kolkata") :: env) w = main X env w) /\
  (getenv env "GOOGLE_SHEET_NAME" = None ->
   main X (("GOOGLE_SHEET_NAME", "Daily Logs") :: env) w = main X env w) /\
  (getenv env "PORT" = None ->
   forall cfg port w', main X env w = (Returned (cfg, port), w') -> port = 5000).
Proof.
  split; [|split; [|split]].
  - intros H. destruct (load_config_missing X env w H)
      as (k & msg & w' & Hin & Hk & L & Hc & Hs).
    exists k, msg, w'. repeat split; trivial. now apply main_raises.
  - intros H. unfold main, load_config, listen_port, getenv_default.
    simpl getenv. now rewrite H.
  - intros H. unfold main, load_config, listen_port, getenv_default.
    simpl getenv. now rewrite H.
  - intros H cfg port w'. unfold main, bind, listen_port, lift, ret.
    rewrite H.
    destruct (load_config X env w) as [[c|e] w1]; [|discriminate].
    destruct (register_commands X c w1) as [[[]|e] w2]; [|discriminate].
    now intros [= _ <- _].
Qed.

Lemma missing_setting_fails_fast_witness :
  exists k msg w',
    In (k, msg) required /\
    not_set (getenv [("DISCORD_PUBLIC_KEY", key_hex)] k) = true /\
    main fair [("DISCORD_PUBLIC_KEY", key_hex)] empty_world
      = (Raised (ValueError msg), w') /\
    outside_calls w' = outside_calls empty_world /\
    sheet_rows w' = sheet_rows empty_world.
Proof.
  apply (proj1 (missing_setting_fails_fast fair
                  [("DISCORD_PUBLIC_KEY", key_hex)] empty_world)).
  exists "DISCORD_TOKEN", "DISCORD_TOKEN env var is required".
  split; [right; left|]; reflexivity.
Defined.

(** C7, as stated, fails for the time zone, the sheet name and the port: with
    none of the three in the environment the process starts, with the
    defaults. *)
Lemma defaults_start_the_server :
  getenv full_env "TIMEZONE" = None /\
  getenv full_env "GOOGLE_SHEET_NAME" = None /\
  getenv full_env "PORT" = None /\
  fst (main fair full_env empty_world)
  = Returned (mkConfig "Asia/Kolkata" "Daily Logs" key_hex "bot-token" "4242"
                       None, 5000).
Proof. repeat split. Qed.

(** C8, as the code has it.  When Discord answers the registration with a
    status other than 200 and 201, the failure is logged as an error and the
    process goes on: the server is started on its port.  When the call
    itself raises, the exception ends the process before the server is
    started. *)
Theorem registration_refusal_survives X env w cfg w1 :
  load_config X env w = (Returned cfg, w1) ->
  (forall status_code text port,
     requests_put X (commands_url cfg) (bot_headers cfg) COMMANDS
       = Returned (status_code, text) ->
     status_code <> 200 ->
     status_code <> 201 ->
     listen_port X env = Returned port ->
     exists w2,
       main X env w = (Returned (cfg, port), w2) /\
       In (refusal status_code text) (log w2)) /\
  (forall e,
     requests_put X (commands_url cfg) (bot_headers cfg) COMMANDS = Raised e ->
     fst (main X env w) = Raised e).
Proof.
  intros L. split.
  - intros status_code text port P S1 S2 Q.
    unfold main, bind. rewrite L.
    unfold register_commands, http_put, bind, note_call, lift. simpl.
    rewrite P. simpl.
    apply Z.eqb_neq in S1, S2. rewrite S1, S2. simpl.
    unfold logging. rewrite Q. simpl.
    eexists. split; [reflexivity|].
    simpl. apply in_or_app. right. left. reflexivity.
  - intros e P. unfold main, bind. rewrite L.
    unfold register_commands, http_put, bind, note_call, lift. simpl.
    rewrite P. reflexivity.
Qed.

Lemma registration_refusal_survives_witness :
  exists w2,
    main discord_forbids full_env empty_world
      = (Returned (sample_cfg, 5000), w2) /\
    In (refusal 403 "Missing Access") (log w2).
Proof.
  refine (proj1 (registration_refusal_survives discord_forbids full_env
                   empty_world sample_cfg
                   (mkWorld [] [OpenSheet "{}" "Daily Logs"]
                      [mkLog WARNING
                         "DISCORD_GUILD_ID not set — commands will register globally and may take up to 1 hour."
                         None])
                   eq_refl)
            403 "Missing Access" 5000 eq_refl _ _ eq_refl); discriminate.
Defined.

(** C8, as stated, fails when the registration call itself raises: Discord
    cannot be reached, the exception leaves [main], and the server is never
    started. *)
Lemma unreachable_discord_stops_start :
  fst (main discord_unreachable full_env empty_world)
  = Raised (OutsideError "ConnectionError"
              "Failed to establish a new connection").
Proof. reflexivity. Qed.

(** * Further properties of the code *)

(** ** The verifier and the door of the handler *)

(** X3. The verifier accepts a request exactly when [request.data] is
    well-formed UTF-8 and the request carries a valid signature of the
    timestamp followed by [request.data]: both headers, a key of 32 and a
    signature of 64 bytes in hexadecimal, and the word of Ed25519.  For a
    request whose body Flask hands over as sent, this is a valid signature of
    the timestamp followed by the body, the body being well-formed UTF-8. *)
Theorem accepted_iff_signed X cfg req w :
  (verified X cfg req w <->
   utf8_valid (data req) = true /\ signed_by X cfg req) /\
  (data req = body req ->
   (verified X cfg req w <->
    utf8_valid (body req) = true /\ signed_over X cfg req (body req))).
Proof.
  assert (A : verified X cfg req w <->
              utf8_valid (data req) = true /\ signed_by X cfg req).
  { split; [apply verified_signed|].
    intros H. unfold verified. rewrite verify_discord_request_eq.
    now rewrite (proj2 (checked_signature_accepts X cfg req) H). }
  split; [exact A|].
  intros D. rewrite A. unfold signed_by. rewrite D. reflexivity.
Qed.

(** X4. The verifier never raises and touches nothing but the log: it
    answers [True] and leaves the world as it was, or answers [False] and
    logs one warning. *)
Theorem verifier_fails_closed X cfg req w :
  verify_discord_request X cfg req w = (Returned true, w) \/
  exists e, verify_discord_request X cfg req w = (Returned false, warned e w).
Proof.
  rewrite verify_discord_request_eq.
  destruct (checked_signature X cfg req) as [b|e] eqn:E.
  - left. now rewrite (checked_signature_true _ _ _ _ E).
  - right. now exists e.
Qed.

(** X5. A request the verifier does not accept, for whatever reason, is
    answered 401 before [request.json] is looked at; only the warning is
    added to the world. *)
Theorem unverified_unauthorized X cfg req w :
  ~ verified X cfg req w ->
  exists e,
    post_interactions X cfg req w
    = (ErrorResponse 401 "Invalid request signature", warned e w).
Proof.
  intros N. unfold verified in N.
  unfold post_interactions, flask_view, interactions, bind.
  rewrite verify_discord_request_eq in *.
  destruct (checked_signature X cfg req) as [b|e] eqn:E.
  - exfalso. apply N. now rewrite (checked_signature_true _ _ _ _ E).
  - exists e. reflexivity.
Qed.

Lemma unverified_unauthorized_witness :
  exists e,
    post_interactions fair sample_cfg latin1_request empty_world
    = (ErrorResponse 401 "Invalid request signature", warned e empty_world).
Proof.
  apply (unverified_unauthorized fair sample_cfg latin1_request empty_world).
  intros H. discriminate H.
Defined.

(** X6. A verified request whose JSON payload is no object: a false payload
    ([null], [0], the empty string, the empty list) is read as the empty
    object and answered as an unsupported type, and the world is left as it
    was; a true one has no [get]: the [AttributeError] leaves the view, Flask
    logs it and answers 500, and the sheet and the outside calls are as they
    were. *)
Theorem payload_not_an_object X cfg req w j :
  verified X cfg req w ->
  json req = Returned j ->
  (truthy j = false ->
   post_interactions X cfg req w
   = (JsonResponse 200 (reply "Unsupported interaction type"), w)) /\
  (truthy j = true ->
   (forall d, j <> VDict d) ->
   post_interactions X cfg req w
   = (ErrorResponse 500 "Internal Server Error",
      crashed "/interactions [POST]" (AttributeError (type_name j) "get") w)).
Proof.
  intros V J. apply verified_world in V.
  unfold post_interactions, flask_view, interactions, bind.
  rewrite V. simpl. rewrite J. unfold lift, py_or. split.
  - intros T. rewrite T. reflexivity.
  - intros T N. rewrite T.
    destruct j as [| | | | | |d]; try reflexivity. now destruct (N d).
Qed.

Lemma payload_not_an_object_witness :
  post_interactions fair sample_cfg (interaction (VList [VInt 1])) empty_world
  = (ErrorResponse 500 "Internal Server Error",
     crashed "/interactions [POST]" (AttributeError "list" "get") empty_world).
Proof.
  refine (proj2 (payload_not_an_object fair sample_cfg
                   (interaction (VList [VInt 1])) empty_world (VList [VInt 1])
                   eq_refl eq_refl) eq_refl _).
  intros d H. discriminate H.
Defined.

(** X7. A verified type 2 interaction whose member and user entries are
    objects where given, and that names no command (no [data] entry, no
    [name] in it, or a name that is no string), is answered as an unknown
    command, and the world is left as it was. *)
Theorem nameless_command_unknown X cfg req w d cd :
  verified X cfg req w ->
  json req = Returned (VDict d) ->
  dict_get d "type" = Some (VInt 2) ->
  data_of d cd ->
  (forall s, dict_get cd "name" <> Some (VStr s)) ->
  identity_shaped d = true ->
  post_interactions X cfg req w
  = (JsonResponse 200 (reply "⚠ Unknown command"), w).
Proof.
  intros V J T D N S. apply verified_world in V.
  unfold post_interactions, flask_view, interactions, bind.
  rewrite V. simpl. rewrite J. unfold lift.
  rewrite py_or_dict. unfold py_get at 1 2. rewrite T. simpl.
  assert (U : forall c, py_eq_str (got (dict_get cd "name")) c = false).
  { intros c. destruct (dict_get cd "name") as [[| | | |s| |]|] eqn:E;
      try reflexivity.
    now destruct (N s). }
  destruct D as [[D ->] | D]; rewrite D; cbn [obind].
  - rewrite (extract_display d S). reflexivity.
  - rewrite py_get_dict, (extract_display d S).
    unfold try_except, commands. rewrite !U. reflexivity.
Qed.

Lemma nameless_command_unknown_witness :
  post_interactions fair sample_cfg
    (interaction (VDict [("type", VInt 2); ("member", bob)])) empty_world
  = (JsonResponse 200 (reply "⚠ Unknown command"), empty_world).
Proof.
  apply (nameless_command_unknown fair sample_cfg
           (interaction (VDict [("type", VInt 2); ("member", bob)]))
           empty_world [("type", VInt 2); ("member", bob)] []);
    try reflexivity.
  - left. split; reflexivity.
  - intros s H. discriminate H.
Defined.

(** ** What the handler calls *)

Section OneCall.

Variable X : Externals.
Variable cfg : Config.

Lemma log_to_sheet_called name action task_title desc w :
  called_at_most_once w (snd (log_to_sheet X cfg name action task_title desc w)).
Proof.
  unfold log_to_sheet, bind, now_ist, lift, append_row, called_at_most_once.
  destruct (datetime_now X (TZ cfg)) as [dt|e]; simpl; [|now left].
  destruct (append_row_fault X (sheet_rows w) _); simpl; eauto.
Qed.

Lemma logged_then_replied_called name action task_title desc content w :
  called_at_most_once w
    (snd ((log_to_sheet X cfg name action task_title desc ;;
           ret (reply content))%run w)).
Proof.
  unfold bind, ret.
  pose proof (log_to_sheet_called name action task_title desc w) as G.
  destruct (log_to_sheet X cfg name action task_title desc w) as [[[]|e] w1];
    exact G.
Qed.

Lemma commands_called data cmd name w :
  called_at_most_once w (snd (commands X cfg data cmd name w)).
Proof.
  unfold commands.
  destruct (py_eq_str cmd "start"); [apply logged_then_replied_called|].
  destruct (py_eq_str cmd "end"); [apply logged_then_replied_called|].
  destruct (py_eq_str cmd "work_done"); [|now left].
  unfold bind at 1, lift at 1.
  destruct (obind _ _) as [options|e]; [|now left].
  unfold bind at 1, lift at 1.
  destruct (option_value options "task_title" _) as [t|e]; [|now left].
  unfold bind at 1, lift at 1.
  destruct (option_value options "desc" _) as [ds|e]; [|now left].
  apply logged_then_replied_called.
Qed.

Lemma guarded_called data cmd name w :
  called_at_most_once w
    (snd (try_except (commands X cfg data cmd name) on_error w)).
Proof.
  unfold try_except.
  pose proof (commands_called data cmd name w) as G.
  destruct (commands X cfg data cmd name w) as [[body|e] w1]; exact G.
Qed.

(** X2. Whatever the request, the handler calls the outside at most once,
    and the call is an append to the sheet: it never calls Discord and never
    opens the sheet anew. *)
Theorem handler_calls_sheet_once req w :
  called_at_most_once w (snd (post_interactions X cfg req w)).
Proof.
  unfold post_interactions, called_at_most_once.
  destruct (flask_view_world "/interactions [POST]" (interactions X cfg req) w)
    as [_ ->].
  fold (called_at_most_once w (snd (interactions X cfg req w))).
  unfold interactions. unfold bind at 1.
  rewrite verify_discord_request_eq.
  destruct (checked_signature X cfg req) as [b|e] eqn:E; [|now left].
  apply checked_signature_true in E. subst b. simpl negb. cbv iota.
  unfold bind at 1, ret at 1. unfold bind at 1, lift at 1.
  destruct (json req) as [j|e]; [|now left].
  unfold bind at 1, lift at 1.
  destruct (py_get (py_or j (VDict [])) "type" VNone) as [t|e]; [|now left].
  destruct (py_eq_int t 1); [now left|].
  unfold bind at 1, lift at 1.
  destruct (py_eq_int t 2); [|now left].
  unfold bind at 1, lift at 1.
  destruct (obind _ _) as [cmd|e]; [|now left].
  unfold bind at 1, lift at 1.
  destruct (extract_user_display _) as [name|e]; [|now left].
  apply guarded_called.
Qed.

End OneCall.

(** ** Payloads out of shape *)

(** X8. A verified type 2 interaction whose [data] entry is present and is
    no object ([null], a number, a list, a string) is not answered: the
    lookup of the command name raises outside the guarded block, Flask logs
    the [AttributeError] and answers 500; the sheet and the outside calls are
    as they were. *)
Theorem command_data_not_object X cfg req w d v :
  verified X cfg req w ->
  json req = Returned (VDict d) ->
  dict_get d "type" = Some (VInt 2) ->
  dict_get d "data" = Some v ->
  (forall cd, v <> VDict cd) ->
  post_interactions X cfg req w
  = (ErrorResponse 500 "Internal Server Error",
     crashed "/interactions [POST]" (AttributeError (type_name v) "get") w).
Proof.
  intros V J T D N. apply verified_world in V.
  unfold post_interactions, flask_view, interactions, bind.
  rewrite V. simpl. rewrite J. unfold lift.
  rewrite py_or_dict. unfold py_get at 1 2. rewrite T. simpl.
  rewrite D.
  destruct v as [| | | | | |cd]; try reflexivity. now destruct (N cd).
Qed.

Lemma command_data_not_object_witness :
  post_interactions fair sample_cfg (interaction (VDict command_data_null))
    empty_world
  = (ErrorResponse 500 "Internal Server Error",
     crashed "/interactions [POST]" (AttributeError "NoneType" "get")
       empty_world).
Proof.
  apply (command_data_not_object fair sample_cfg
           (interaction (VDict command_data_null)) empty_world
           command_data_null VNone); try reflexivity.
  intros cd H. discriminate H.
Defined.

(** X9. A verified interaction whose payload is an object, whose [data]
    entry is an object or absent and whose member and user entries are
    objects where given, is always answered with status 200, whatever its
    type, its command and the answers of the clock and the sheet. *)
Theorem wellformed_answered X cfg req w d cd :
  verified X cfg req w ->
  json req = Returned (VDict d) ->
  data_of d cd ->
  identity_shaped d = true ->
  exists body w',
    post_interactions X cfg req w = (JsonResponse 200 body, w').
Proof.
  intros V J D S. apply verified_world in V.
  unfold post_interactions, flask_view, interactions, bind.
  rewrite V. simpl. rewrite J. unfold lift.
  rewrite py_or_dict, !py_get_dict.
  destruct (py_eq_int (got (dict_get d "type")) 1);
    [do 2 eexists; reflexivity|].
  destruct (py_eq_int (got (dict_get d "type")) 2);
    [|do 2 eexists; reflexivity].
  unfold py_get at 1.
  destruct D as [[D ->] | D]; rewrite D; cbn [obind];
    rewrite ?py_get_dict, (extract_display d S); unfold try_except;
    match goal with
    | |- context [commands X cfg (VDict d) ?c (display_value d) w] =>
        destruct (commands X cfg (VDict d) c (display_value d) w)
          as [[b|e] w1]
    end; do 2 eexists; reflexivity.
Qed.

Lemma wellformed_answered_witness :
  exists body w',
    post_interactions sheet_down sample_cfg (interaction work_done_by_bob)
      empty_world = (JsonResponse 200 body, w').
Proof.
  apply (wellformed_answered sheet_down sample_cfg
           (interaction work_done_by_bob) empty_world work_done_payload
           work_done_data); try reflexivity.
  right. reflexivity.
Defined.

(** ** Faults before the append *)

(** X10. When the clock cannot be read, a verified [start], [end] or
    [work_done] whose member and user entries are objects where given, and
    whose options are a list of objects or absent, is answered with the error
    message, the fault is logged, and the sheet is not called at all. *)
Theorem clock_fault_reported X cfg req w d cd cmd opts e :
  verified X cfg req w ->
  json req = Returned (VDict d) ->
  dict_get d "type" = Some (VInt 2) ->
  dict_get d "data" = Some (VDict cd) ->
  dict_get cd "name" = Some (VStr cmd) ->
  recognized cmd ->
  identity_shaped d = true ->
  options_of cd opts ->
  datetime_now X (TZ cfg) = Raised e ->
  post_interactions X cfg req w
  = (JsonResponse 200 (reply ("❌ Error: " ++ str_exn e)), error_logged e w).
Proof.
  intros V J T D N R S O C.
  assert (L : forall name action t ds,
             log_to_sheet X cfg name action t ds w = (Raised e, w)).
  { intros. unfold log_to_sheet, bind, now_ist, lift. now rewrite C. }
  assert (I := interactions_command _ _ _ _ _ _ V J T D).
  rewrite (extract_display d S), N in I. simpl got in I.
  unfold post_interactions, flask_view. rewrite I. clear I.
  unfold try_except, commands, bind.
  destruct R as [-> | [-> | ->]]; decide_command.
  - rewrite L. reflexivity.
  - rewrite L. reflexivity.
  - unfold lift. rewrite (options_read d cd opts "" D O).
    rewrite !option_value_named. rewrite L. reflexivity.
Qed.

Lemma clock_fault_reported_witness :
  post_interactions clock_down sample_cfg (interaction start_by_bob)
    empty_world
  = (JsonResponse 200
       (reply "❌ Error: 'No time zone found with key Asia/Kolkata'"),
     error_logged (KeyError "'No time zone found with key Asia/Kolkata'")
       empty_world).
Proof.
  apply (clock_fault_reported clock_down sample_cfg (interaction start_by_bob)
           empty_world
           [("type", VInt 2); ("data", VDict [("name", VStr "start")]);
            ("member", bob)]
           [("name", VStr "start")] "start" []
           (KeyError "'No time zone found with key Asia/Kolkata'"));
    try reflexivity.
  - left. reflexivity.
  - left. split; reflexivity.
Defined.

(** X11. When the options of a verified [work_done] whose member and user
    entries are objects where given cannot be read (they are a number, an
    object, a string, or a list with an element that is no object before the
    named one), the reply carries the error message, the fault is logged,
    and neither the clock nor the sheet is called. *)
Theorem options_fault_reported X cfg req w d cd o e :
  verified X cfg req w ->
  json req = Returned (VDict d) ->
  dict_get d "type" = Some (VInt 2) ->
  dict_get d "data" = Some (VDict cd) ->
  dict_get cd "name" = Some (VStr "work_done") ->
  dict_get cd "options" = Some o ->
  identity_shaped d = true ->
  options_fault o = Some e ->
  post_interactions X cfg req w
  = (JsonResponse 200 (reply ("❌ Error: " ++ str_exn e)), error_logged e w).
Proof.
  intros V J T D N O S F.
  assert (I := interactions_command _ _ _ _ _ _ V J T D).
  rewrite (extract_display d S), N in I. simpl got in I.
  unfold post_interactions, flask_view. rewrite I. clear I.
  unfold try_except, commands, bind. decide_command.
  unfold lift, py_get at 1. rewrite D. cbn [obind]. unfold py_get at 1.
  rewrite O. unfold options_fault in F.
  destruct (option_value o "task_title" (VStr "")) as [t|e1].
  - destruct (option_value o "desc" (VStr "")) as [ds|e2];
      [discriminate|]. injection F as ->. reflexivity.
  - injection F as ->. reflexivity.
Qed.

Lemma options_fault_reported_witness :
  post_interactions fair sample_cfg
    (interaction (VDict work_done_options_object)) empty_world
  = (JsonResponse 200
       (reply "❌ Error: 'str' object has no attribute 'get'"),
     error_logged (AttributeError "str" "get") empty_world).
Proof.
  apply (options_fault_reported fair sample_cfg
           (interaction (VDict work_done_options_object)) empty_world
           work_done_options_object
           [("name", VStr "work_done");
            ("options", VDict [("task_title", VStr "Fix bug")])]
           (VDict [("task_title", VStr "Fix bug")])
           (AttributeError "str" "get")); reflexivity.
Defined.

(** ** The shape of a row *)

Section RowShape.

Variable X : Externals.
Variable cfg : Config.







End RowShape.


(** ** Reading an option *)

(** X13. [option_value] answers with the first object that has the name:
    its [value], or the default when it has none.  The objects before it
    are passed over, and what follows it is never looked at, whatever it
    is. *)
Theorem option_value_first_match (pre : list dict) (o : dict)
    (rest : list value) (name : string) (default : value) :
  (forall p, In p pre -> py_eq_str (got (dict_get p "name")) name = false) ->
  py_eq_str (got (dict_get o "name")) name = true ->
  option_value (VList (map VDict pre ++ VDict o :: rest)) name default
  = Returned (match dict_get o "value" with
              | Some v => v
              | None => default
              end).
Proof.
  intros P M. unfold option_value.
  assert (T : truthy (VList (map VDict pre ++ VDict o :: rest)) = true)
    by (destruct pre; reflexivity).
  rewrite T. clear T. simpl negb. cbv iota. simpl py_iter. cbn [obind].
  unfold got in *.
  induction pre as [|p pre IH]; simpl.
  - rewrite M. reflexivity.
  - rewrite (P p (or_introl eq_refl)). apply IH.
    intros q Q. apply P. now right.
Qed.

Lemma option_value_first_match_witness :
  option_value
    (VList (map VDict [[("name", VStr "desc"); ("value", VStr "later")]]
            ++ VDict fix_bug_option :: [VInt 5]))
    "task_title" (VStr "")
  = Returned (VStr "Fix bug").
Proof.
  apply (option_value_first_match
           [[("name", VStr "desc"); ("value", VStr "later")]]
           fix_bug_option [VInt 5] "task_title" (VStr "")).
  - intros p [<- | []]. reflexivity.
  - reflexivity.
Defined.

(** X14. For a list of objects none of which has the name, [option_value]
    answers with the default. *)
Theorem option_value_no_match (opts : list dict) (name : string)
    (default : value) :
  (forall p, In p opts -> py_eq_str (got (dict_get p "name")) name = false) ->
  option_value (VList (map VDict opts)) name default = Returned default.
Proof.
  intros P.
  assert (Loop : option_loop (map VDict opts) name default = Returned default).
  { unfold got in P.
    induction opts as [|p l IH]; simpl; [reflexivity|].
    rewrite (P p (or_introl eq_refl)). apply IH.
    intros q Q. apply P. now right. }
  unfold option_value.
  destruct opts as [|o opts]; [reflexivity | exact Loop].
Qed.

Lemma option_value_no_match_witness :
  option_value (VList (map VDict [fix_bug_option])) "desc" (VStr "")
  = Returned (VStr "").
Proof.
  apply (option_value_no_match [fix_bug_option] "desc" (VStr "")).
  intros p [<- | []]. reflexivity.
Defined.

(** X15. Options that are true and are no list always make [option_value]
    raise: a number or a boolean is not iterable, and an object or a string
    is iterated into strings, which have no [get]. *)
Theorem option_value_not_a_list (o : value) (name : string) (default : value) :
  truthy o = true ->
  (forall l, o <> VList l) ->
  option_value o name default = Raised (options_error o).
Proof.
  intros T L. unfold option_value. rewrite T. simpl negb. cbv iota.
  destruct o as [|b|z|f|s|l|d]; try reflexivity.
  - destruct s as [|c s]; [discriminate T | reflexivity].
  - now destruct (L l).
  - destruct d as [|[k v] d]; [discriminate T | reflexivity].
Qed.

Lemma option_value_not_a_list_witness :
  option_value (VDict [("task_title", VStr "Fix bug")]) "task_title" (VStr "")
  = Raised (AttributeError "str" "get").
Proof.
  apply (option_value_not_a_list (VDict [("task_title", VStr "Fix bug")])
           "task_title" (VStr "")).
  - reflexivity.
  - intros l H. discriminate H.
Defined.

(** ** More on the display name *)

(** X16. A display name that is derived is never false: it is not [None]
    and not the empty string, whatever the payload. *)
Theorem display_name_never_empty (data v : value) :
  extract_user_display data = Returned v -> truthy v = true.
Proof.
  assert (Last : forall (x : outcome value) (u r : value),
             x ||| Returned u = Returned r ->
             truthy u = true -> truthy r = true).
  { intros [a|e] u r; unfold or_else; simpl; [|discriminate].
    destruct (truthy a) eqn:A; intros [= <-]; auto. }
  unfold extract_user_display. intros H.
  destruct (py_get data "member" VNone ||| Returned (VDict [])) as [m|e];
    [|discriminate H].
  cbn [obind] in H.
  destruct (py_get m "user" VNone ||| py_get data "user" VNone
            ||| Returned (VDict [])) as [u|e]; [|discriminate H].
  cbn [obind] in H.
  exact (Last _ _ _ H eq_refl).
Qed.

Lemma display_name_never_empty_witness :
  truthy (VStr "Unknown") = true.
Proof.
  apply (display_name_never_empty (VDict all_blank) (VStr "Unknown")).
  reflexivity.
Defined.

(** X17. A nickname that is present and not empty is the display name,
    whatever else the payload holds: the user entries are not looked into,
    even when they are out of shape. *)
Theorem nickname_wins (d m : dict) (v : value) :
  dict_get d "member" = Some (VDict m) ->
  dict_get m "nick" = Some v ->
  truthy v = true ->
  extract_user_display (VDict d) = Returned v.
Proof.
  intros M N T. unfold extract_user_display.
  rewrite py_get_dict, M. simpl got.
  destruct m as [|kv m]; [discriminate N|].
  rewrite or_else_truthy by reflexivity. cbn [obind].
  rewrite !py_get_dict.
  destruct (or_else_returns
              (Returned (got (dict_get (kv :: m) "user"))
               ||| Returned (got (dict_get d "user")))
              (Returned (VDict [])))
    as [u ->]; [apply or_else_returns; eauto | eauto |].
  cbn [obind]. rewrite N. simpl got.
  now rewrite !(or_else_truthy v _ T).
Qed.

Lemma nickname_wins_witness :
  extract_user_display
    (VDict [("member", VDict [("nick", VStr "Bob"); ("user", VInt 5)])])
  = Returned (VStr "Bob").
Proof.
  apply (nickname_wins
           [("member", VDict [("nick", VStr "Bob"); ("user", VInt 5)])]
           [("nick", VStr "Bob"); ("user", VInt 5)] (VStr "Bob"));
    reflexivity.
Defined.

(** X18. When the member object carries a user entry that is not false,
    the display name depends on the member object alone: two payloads with
    the same member give the same result, whatever their user entries at top
    level. *)
Theorem member_user_shadows (d d' m : dict) (u : value) :
  dict_get d "member" = Some (VDict m) ->
  dict_get d' "member" = Some (VDict m) ->
  dict_get m "user" = Some u ->
  truthy u = true ->
  extract_user_display (VDict d) = extract_user_display (VDict d').
Proof.
  intros M M' U T. unfold extract_user_display.
  rewrite !py_get_dict, M, M'. simpl got.
  destruct m as [|kv m]; [discriminate U|].
  rewrite or_else_truthy by reflexivity. cbn [obind].
  rewrite !py_get_dict, U. simpl got.
  now rewrite !(or_else_truthy u _ T).
Qed.

Lemma member_user_shadows_witness :
  extract_user_display (VDict bob_with_stranger)
  = extract_user_display (VDict bob_alone).
Proof.
  apply (member_user_shadows bob_with_stranger bob_alone
           [("nick", VStr "Bob");
            ("user", VDict [("global_name", VStr "robert");
                            ("username", VStr "rob123")])]
           (VDict [("global_name", VStr "robert");
                   ("username", VStr "rob123")]));
    reflexivity.
Defined.

(** ** Registered and handled commands *)

(** X19. The commands the bot registers with Discord are the commands it
    handles: a name gets the answer for an unknown command exactly when it
    is not among the names of [COMMANDS]. *)
Theorem registered_iff_handled X cfg data cmd name w :
  In cmd registered_names <->
  fst (commands X cfg data (VStr cmd) name w)
  <> Returned (reply "⚠ Unknown command").
Proof.
  split.
  - intros H.
    change registered_names with ["start"; "end"; "work_done"] in H.
    destruct H as [<- | [<- | [<- | []]]]; unfold commands; decide_command.
    + unfold bind, ret.
      destruct (log_to_sheet _ _ _ _ _ _ w) as [[[]|e] w1]; simpl;
        discriminate.
    + unfold bind, ret.
      destruct (log_to_sheet _ _ _ _ _ _ w) as [[[]|e] w1]; simpl;
        discriminate.
    + unfold bind, lift, ret.
      destruct (obind _ _) as [options|e]; [|discriminate].
      destruct (option_value options "task_title" _) as [t|e];
        [|discriminate].
      destruct (option_value options "desc" _) as [ds|e]; [|discriminate].
      destruct (log_to_sheet _ _ _ _ _ _ w) as [[[]|e] w1]; simpl;
        discriminate.
  - intros H.
    destruct (String.eqb cmd "start") eqn:E1;
      [apply String.eqb_eq in E1; subst; now left|].
    destruct (String.eqb cmd "end") eqn:E2;
      [apply String.eqb_eq in E2; subst; right; now left|].
    destruct (String.eqb cmd "work_done") eqn:E3;
      [apply String.eqb_eq in E3; subst; right; right; now left|].
    exfalso. apply H. unfold commands, py_eq_str.
    rewrite E1, E2, E3. reflexivity.
Qed.

(** ** More on the start of the process *)

(** X20. A process that starts has called the outside exactly twice, in
    this order: it has opened the sheet named in its configuration with the
    credentials of the environment, then it has sent [COMMANDS] to the
    commands address with the bot token.  It has written nothing to the
    sheet. *)
Theorem started_after_two_calls X env w cfg port w' :
  main X env w = (Returned (cfg, port), w') ->
  outside_calls w'
  = (outside_calls w
     ++ [OpenSheet (env_text (getenv env "GOOGLE_CREDS_JSON")) (SHEET_NAME cfg);
         HttpPut (commands_url cfg) (bot_headers cfg) COMMANDS])%list /\
  sheet_rows w' = sheet_rows w.
Proof.
  assert (Load : forall c w1,
             load_config X env w = (Returned c, w1) ->
             outside_calls w1
             = (outside_calls w
                ++ [OpenSheet (env_text (getenv env "GOOGLE_CREDS_JSON"))
                      (SHEET_NAME c)])%list /\
             sheet_rows w1 = sheet_rows w).
  { intros c w1. unfold load_config.
    destruct (not_set (getenv env "DISCORD_PUBLIC_KEY")); [discriminate|].
    destruct (not_set (getenv env "DISCORD_TOKEN")); [discriminate|].
    destruct (not_set (getenv env "DISCORD_APP_ID")); [discriminate|].
    unfold bind, logging, ret, raise, note_call.
    destruct (not_set (getenv env "DISCORD_GUILD_ID"));
      destruct (not_set (getenv env "GOOGLE_CREDS_JSON"));
      try discriminate;
      destruct (load_creds_fault X _); try discriminate;
      destruct (open_sheet_fault X _ _); try discriminate;
      intros [= <- <-]; (split; reflexivity). }
  unfold main, bind.
  destruct (load_config X env w) as [[c|e] w1] eqn:L; [|discriminate].
  destruct (Load c w1 eq_refl) as [C R].
  unfold register_commands, http_put, bind, note_call, lift.
  destruct (requests_put X (commands_url c) (bot_headers c) COMMANDS)
    as [[st tx]|e]; [|discriminate].
  cbn [fst snd]. unfold logging, ret.
  destruct ((st =? 200) || (st =? 201));
    destruct (listen_port X env) as [p|e]; try discriminate;
    intros [= <- <- <-]; cbn [outside_calls sheet_rows];
    rewrite C, <- app_assoc; (split; [reflexivity | exact R]).
Qed.

Lemma started_after_two_calls_witness :
  outside_calls (snd (main fair full_env empty_world))
  = (outside_calls empty_world
     ++ [OpenSheet (env_text (getenv full_env "GOOGLE_CREDS_JSON"))
           (SHEET_NAME sample_cfg);
         HttpPut (commands_url sample_cfg) (bot_headers sample_cfg)
           COMMANDS])%list /\
  sheet_rows (snd (main fair full_env empty_world)) = sheet_rows empty_world.
Proof.
  apply (started_after_two_calls fair full_env empty_world sample_cfg 5000
           (snd (main fair full_env empty_world))).
  reflexivity.
Defined.

(** X21. When every required variable is set, a fault ends the process
    before the commands are registered.  Credentials that cannot be loaded
    ([json.loads], [from_json_keyfile_dict]) end it before any call to the
    outside; a sheet that cannot be opened ends it with the opening of the
    sheet as the only call made. *)
Theorem sheet_fault_stops_start X env w e :
  (forall k msg, In (k, msg) required -> not_set (getenv env k) = false) ->
  (load_creds_fault X (env_text (getenv env "GOOGLE_CREDS_JSON")) = Some e ->
   exists w',
     main X env w = (Raised e, w') /\ outside_calls w' = outside_calls w) /\
  (load_creds_fault X (env_text (getenv env "GOOGLE_CREDS_JSON")) = None ->
   open_sheet_fault X (env_text (getenv env "GOOGLE_CREDS_JSON"))
     (getenv_default env "GOOGLE_SHEET_NAME" "Daily Logs") = Some e ->
   exists w',
     main X env w = (Raised e, w') /\
     outside_calls w'
     = (outside_calls w
        ++ [OpenSheet (env_text (getenv env "GOOGLE_CREDS_JSON"))
              (getenv_default env "GOOGLE_SHEET_NAME" "Daily Logs")])%list).
Proof.
  intros R.
  assert (R1 := R "DISCORD_PUBLIC_KEY" _ (or_introl eq_refl)).
  assert (R2 := R "DISCORD_TOKEN" _ (or_intror (or_introl eq_refl))).
  assert (R3 := R "DISCORD_APP_ID" _
                  (or_intror (or_intror (or_introl eq_refl)))).
  assert (R4 := R "GOOGLE_CREDS_JSON" _
                  (or_intror (or_intror (or_intror (or_introl eq_refl))))).
  split.
  - intros C. unfold main, bind at 1, load_config. rewrite R1, R2, R3.
    unfold bind, logging, ret, raise, note_call.
    destruct (not_set (getenv env "DISCORD_GUILD_ID")); rewrite R4, C;
      eexists; split; reflexivity.
  - intros C O. unfold main, bind at 1, load_config. rewrite R1, R2, R3.
    unfold bind, logging, ret, raise, note_call.
    destruct (not_set (getenv env "DISCORD_GUILD_ID")); rewrite R4, C, O;
      eexists; split; reflexivity.
Qed.

Lemma sheet_fault_stops_start_witness :
  (exists w',
     main creds_broken broken_env empty_world
     = (Raised (ValueError "Expecting property name enclosed in double quotes: line 1 column 2 (char 1)"),
        w') /\
     outside_calls w' = outside_calls empty_world) /\
  (exists w',
     main sheet_missing full_env empty_world
     = (Raised (OutsideError "SpreadsheetNotFound" "Daily Logs"), w') /\
     outside_calls w'
     = (outside_calls empty_world
        ++ [OpenSheet (env_text (getenv full_env "GOOGLE_CREDS_JSON"))
              (getenv_default full_env "GOOGLE_SHEET_NAME" "Daily Logs")])%list).
Proof.
  assert (R : forall env,
             (env = broken_env \/ env = full_env) ->
             forall k msg, In (k, msg) required ->
                           not_set (getenv env k) = false).
  { intros env [-> | ->] k msg [H | [H | [H | [H | []]]]];
      injection H as <- <-; reflexivity. }
  split.
  - apply (proj1 (sheet_fault_stops_start creds_broken broken_env empty_world
                    (ValueError "Expecting property name enclosed in double quotes: line 1 column 2 (char 1)")
                    (R broken_env (or_introl eq_refl)))).
    reflexivity.
  - apply (proj2 (sheet_fault_stops_start sheet_missing full_env empty_world
                    (OutsideError "SpreadsheetNotFound" "Daily Logs")
                    (R full_env (or_intror eq_refl)))); reflexivity.
Defined.

(** X22. The port is read last.  When [PORT] is set to a text that [int]
    refuses, its [ValueError] ends the process only after the sheet has been
    opened and the commands have been sent to Discord. *)
Theorem bad_port_after_registration X env w cfg w1 status_code text s e :
  load_config X env w = (Returned cfg, w1) ->
  requests_put X (commands_url cfg) (bot_headers cfg) COMMANDS
    = Returned (status_code, text) ->
  getenv env "PORT" = Some s ->
  int_of_str X s = Raised e ->
  exists w2,
    main X env w = (Raised e, w2) /\
    In (OpenSheet (env_text (getenv env "GOOGLE_CREDS_JSON")) (SHEET_NAME cfg))
       (outside_calls w2) /\
    In (HttpPut (commands_url cfg) (bot_headers cfg) COMMANDS)
       (outside_calls w2).
Proof.
  intros L P E I.
  assert (O : In (OpenSheet (env_text (getenv env "GOOGLE_CREDS_JSON"))
                    (SHEET_NAME cfg)) (outside_calls w1)).
  { revert L. unfold load_config.
    destruct (not_set (getenv env "DISCORD_PUBLIC_KEY")); [discriminate|].
    destruct (not_set (getenv env "DISCORD_TOKEN")); [discriminate|].
    destruct (not_set (getenv env "DISCORD_APP_ID")); [discriminate|].
    unfold bind, logging, ret, raise, note_call.
    destruct (not_set (getenv env "DISCORD_GUILD_ID"));
      destruct (not_set (getenv env "GOOGLE_CREDS_JSON"));
      try discriminate;
      destruct (load_creds_fault X _); try discriminate;
      destruct (open_sheet_fault X _ _); try discriminate;
      intros [= <- <-]; cbn [outside_calls SHEET_NAME];
      apply in_or_app; right; now left. }
  unfold main, bind. rewrite L.
  unfold register_commands, http_put, bind, note_call, lift.
  rewrite P. cbn [fst snd]. unfold logging, listen_port. rewrite E, I.
  destruct ((status_code =? 200) || (status_code =? 201));
    eexists; (split; [reflexivity|]); cbn [outside_calls];
    (split; apply in_or_app; [left; exact O | right; now left]).
Qed.

Lemma bad_port_after_registration_witness :
  exists w2,
    main fair port_env empty_world
    = (Raised (ValueError "invalid literal for int() with base 10: 'http'"),
       w2) /\
    In (OpenSheet (env_text (getenv port_env "GOOGLE_CREDS_JSON"))
          (SHEET_NAME sample_cfg)) (outside_calls w2) /\
    In (HttpPut (commands_url sample_cfg) (bot_headers sample_cfg) COMMANDS)
       (outside_calls w2).
Proof.
  apply (bad_port_after_registration fair port_env empty_world sample_cfg
           loaded_world 200 "[]" "http"); reflexivity.
Defined.
